(** * Costa Coffee UPI scanner: the two helper functions of [main.py]

    A shallow embedding of [generate_upi_link] and
    [generate_qr_code_base64], together with the parts of the Python
    standard library they call: [urllib.parse.quote] (Python 3.7 and
    later, where [~] is always safe), the ['.2f'] format of a [float]
    and [base64.b64encode].

    Representation of Python values.
    - A [str] is represented by the [string] of its UTF-8 octets, which
      is what [urllib.parse.quote] works on after [str.encode].
      Concatenation and substring search commute with this encoding.
      A [str] with a lone surrogate has no UTF-8 encoding and hence no
      representation here.
    - [None] is [None]; an argument that may be [None] is an [option].
    - The amount is a [float], as the docstring declares and the number
      input of the form delivers: an IEEE 754 binary64 value,
      [spec_float], with signed zeros, infinities, NaN, and
      [S754_finite s m e] for [(-1)^s * m * 2^e].  The text that
      ['.2f'] gives for a finite float is the exact binary value
      rounded to hundredths, ties to even. *)

From Stdlib Require Import ZArith NArith List String Ascii Bool Lia.
From Stdlib Require Import DecimalString DecimalN SpecFloat.
Import ListNotations.

Local Open Scope string_scope.

(** ** Strings *)

Module Str.

(** [c in s] for a one-character [c]. *)
Fixpoint mem (c : ascii) (s : string) : bool :=
  match s with
  | EmptyString => false
  | String d s' => Ascii.eqb c d || mem c s'
  end.

(** [s[i]], with a default outside the string. *)
Fixpoint char_at (s : string) (i : nat) (default : ascii) : ascii :=
  match s, i with
  | EmptyString, _ => default
  | String c _, O => c
  | String _ s', S j => char_at s' j default
  end.

Fixpoint forallb (p : ascii -> bool) (s : string) : bool :=
  match s with
  | EmptyString => true
  | String c s' => p c && forallb p s'
  end.

(** [s.startswith(p)]. *)
Fixpoint startswith (p s : string) : bool :=
  match p, s with
  | EmptyString, _ => true
  | String _ _, EmptyString => false
  | String a p', String b s' => Ascii.eqb a b && startswith p' s'
  end.

(** Number of positions of [s] at which [p] occurs.  For the keys
    used below, which cannot overlap themselves, this is
    [s.count(p)]. *)
Fixpoint count (p s : string) : nat :=
  match s with
  | EmptyString => 0
  | String _ s' => (if startswith p s then 1 else 0) + count p s'
  end.

(** [s.find(p)], with [None] for [-1]. *)
Fixpoint find (p s : string) : option nat :=
  match s with
  | EmptyString => None
  | String _ s' =>
      if startswith p s then Some 0 else option_map S (find p s')
  end.

(** [s.split(sep)] for a one-character separator. *)
Fixpoint split (sep : ascii) (s : string) : list string :=
  match s with
  | EmptyString => [EmptyString]
  | String c s' =>
      if Ascii.eqb c sep then EmptyString :: split sep s'
      else match split sep s' with
           | h :: t => String c h :: t
           | [] => [String c EmptyString]
           end
  end.

(** The [k]-th piece counted from the right: [s.split(sep)[-1-k]]. *)
Definition rfield (sep : ascii) (k : nat) (s : string) : option string :=
  nth_error (rev (split sep s)) k.

Definition is_digit (c : ascii) : bool := mem c "0123456789".

(** Truth value of a [str]: [bool(s)]. *)
Definition truthy (s : string) : bool :=
  match s with
  | EmptyString => false
  | String _ _ => true
  end.

End Str.

(** ** [urllib.parse] *)

Module UrlParse.

Definition ALWAYS_SAFE : string :=
  "ABCDEFGHIJKLMNOPQRSTUVWXYZabcdefghijklmnopqrstuvwxyz0123456789_.-~".

Definition hex_upper (n : N) : ascii :=
  Str.char_at "0123456789ABCDEF" (N.to_nat n) "0"%char.

(** [_Quoter.__missing__]: a safe octet stands for itself, any other
    is ['%{:02X}'.format(b)]. *)
Definition quoter (safe : string) (b : ascii) : string :=
  if Str.mem b safe then String b EmptyString
  else
    let n := N_of_ascii b in
    String "%" (String (hex_upper (n / 16)%N)
                  (String (hex_upper (n mod 16)%N) EmptyString)).

(** [quote_from_bytes(bs, safe)], where [safe] already includes the
    always-safe set. *)
Fixpoint quote_from_bytes (bs safe : string) : string :=
  match bs with
  | EmptyString => EmptyString
  | String b bs' => quoter safe b ++ quote_from_bytes bs' safe
  end.

(** [quote(string)] with the default [safe='/']. *)
Definition quote (s : string) : string :=
  quote_from_bytes s (ALWAYS_SAFE ++ "/").

(** One hexadecimal digit of [_hextobyte], either case. *)
Definition hex_value (c : ascii) : option N :=
  let n := N_of_ascii c in
  if ((48 <=? n) && (n <=? 57))%N then Some (n - 48)%N
  else if ((65 <=? n) && (n <=? 70))%N then Some (n - 55)%N
  else if ((97 <=? n) && (n <=? 102))%N then Some (n - 87)%N
  else None.

(** [unquote_to_bytes]: [%XX] becomes one octet, a [%] that is not
    followed by two hexadecimal digits is kept. *)
Fixpoint unquote (s : string) : string :=
  match s with
  | EmptyString => EmptyString
  | String c s' =>
      if Ascii.eqb c "%" then
        match s' with
        | String h (String l rest) =>
            match hex_value h, hex_value l with
            | Some a, Some b => String (ascii_of_N (16 * a + b)%N) (unquote rest)
            | _, _ => String c (unquote s')
            end
        | _ => String c (unquote s')
        end
      else String c (unquote s')
  end.

Definition is_upper_hex (c : ascii) : bool := Str.mem c "0123456789ABCDEF".

(** A string made only of safe characters and of [%XX] triplets with
    upper-case hexadecimal digits. *)
Fixpoint pct_encoded (safe s : string) : bool :=
  match s with
  | EmptyString => true
  | String c s' =>
      if Ascii.eqb c "%" then
        match s' with
        | String h (String l rest) =>
            is_upper_hex h && is_upper_hex l && pct_encoded safe rest
        | _ => false
        end
      else Str.mem c safe && pct_encoded safe s'
  end.

(** The characters that the spec wants escaped in a query value. *)
Definition needs_escape (c : ascii) : bool :=
  Ascii.eqb c " " || Ascii.eqb c "&" || Ascii.eqb c "=" || (128 <=? N_of_ascii c)%N.

End UrlParse.

(** ** [format(x, '.2f')] for a [float] *)

Module FloatFormat.

Local Open Scope Z_scope.

(** The integer nearest to [num / den], ties to the even one
    ([den > 0]). *)
Definition round_half_even (num den : Z) : Z :=
  let q := num / den in
  let r := num mod den in
  match 2 * r ?= den with
  | Lt => q
  | Gt => q + 1
  | Eq => if Z.even q then q else q + 1
  end.

(** [m * 2^e] in hundredths, correctly rounded. *)
Definition hundredths (m : positive) (e : Z) : Z :=
  if 0 <=? e then 100 * Z.pos m * 2 ^ e
  else round_half_even (100 * Z.pos m) (2 ^ (- e)).

Definition digit (n : N) : ascii := ascii_of_N (48 + n).

Definition decimal (n : N) : string :=
  NilEmpty.string_of_uint (N.to_uint n).

(** A count of hundredths written with a decimal point. *)
Definition fixed2 (c : N) : string :=
  (decimal (c / 100)
     ++ String "." (String (digit (c mod 100 / 10))
                      (String (digit (c mod 10)) EmptyString)))%N.

Definition sign (s : bool) : string := if s then "-" else "".

Definition format_2f (x : spec_float) : string :=
  match x with
  | S754_nan => "nan"
  | S754_infinity s => sign s ++ "inf"
  | S754_zero s => sign s ++ "0.00"
  | S754_finite s m e => sign s ++ fixed2 (Z.to_N (hundredths m e))
  end.

(** [x > 0]. *)
Definition gt_zero (x : spec_float) : bool := SFltb (S754_zero false) x.

(** [x <= 0]. *)
Definition le_zero (x : spec_float) : bool := SFleb x (S754_zero false).

Definition is_finite (x : spec_float) : bool :=
  match x with
  | S754_zero _ | S754_finite _ _ _ => true
  | _ => false
  end.

(** Reading back a number written with a decimal point: the text
    must be a non-empty run of digits, a point, and exactly two
    digits; the result is the number in hundredths. *)
Definition read_fixed2 (s : string) : option N :=
  match Str.split "." s with
  | [ip; fp] =>
      if Str.truthy ip && Nat.eqb (String.length fp) 2 then
        match NilEmpty.uint_of_string ip, NilEmpty.uint_of_string fp with
        | Some i, Some f => Some (100 * N.of_uint i + N.of_uint f)%N
        | _, _ => None
        end
      else None
  | _ => None
  end.

(** [n] is the integer nearest to [num / den], and the even one of
    the two when [num / den] lies half-way ([den > 0]). *)
Definition nearest_even (num den n : Z) : Prop :=
  2 * Z.abs (num - n * den) <= den /\
  (2 * Z.abs (num - n * den) = den -> Z.even n = true).

(** [100 * m * 2^e] as a fraction of integers. *)
Definition hundredfold_num (m : positive) (e : Z) : Z :=
  100 * Z.pos m * 2 ^ Z.max e 0.
Definition hundredfold_den (e : Z) : Z := 2 ^ Z.max (- e) 0.

End FloatFormat.

(** ** [generate_upi_link] *)

Definition generate_upi_link
    (upi_id name : option string) (amount : option spec_float) : option string :=
  match upi_id, name, amount with
  | Some upi_id, Some name, Some amount =>
      if negb (Str.truthy upi_id && Str.truthy name && FloatFormat.gt_zero amount)
      then None
      else
        let encoded_name := UrlParse.quote name in
        Some ("upi://pay?pa=" ++ upi_id ++ "&pn=" ++ encoded_name
                ++ "&am=" ++ FloatFormat.format_2f amount ++ "&cu=INR")
  | _, _, _ => None
  end.

(** ** [base64] *)

Module Base64.

Definition alphabet : string :=
  "ABCDEFGHIJKLMNOPQRSTUVWXYZabcdefghijklmnopqrstuvwxyz0123456789+/".

Definition sextet (n : N) : ascii :=
  Str.char_at alphabet (N.to_nat (n mod 64)) "A"%char.

(** [base64.b64encode(bs).decode("utf-8")]: three octets give four
    characters, a shorter last group is padded with [=]. *)
Fixpoint b64encode (bs : list Byte.byte) : string :=
  match bs with
  | [] => EmptyString
  | [a] =>
      let n := (Byte.to_N a * 65536)%N in
      String (sextet (n / 262144)) (String (sextet (n / 4096)) "==")
  | [a; b] =>
      let n := (Byte.to_N a * 65536 + Byte.to_N b * 256)%N in
      String (sextet (n / 262144))
        (String (sextet (n / 4096)) (String (sextet (n / 64)) "="))
  | a :: b :: c :: rest =>
      let n := (Byte.to_N a * 65536 + Byte.to_N b * 256 + Byte.to_N c)%N in
      String (sextet (n / 262144))
        (String (sextet (n / 4096))
           (String (sextet (n / 64))
              (String (sextet n) (b64encode rest))))
  end.

End Base64.

(** ** The [qrcode] package

    The package is third-party code; the wrapper only builds a [QRCode]
    object with fixed settings and calls four of its methods.  The
    object's settings are modelled as the constructor takes them, the
    symbol construction and the rendering are left to a [Library].
    A [Library] describes the calls of the package that return: a call
    that raises, as [make] does for data beyond the capacity of the
    largest symbol, has no counterpart here. *)

Module QR.

(** [qrcode.constants]. *)
Inductive error_correction : Set :=
| ERROR_CORRECT_L
| ERROR_CORRECT_M
| ERROR_CORRECT_Q
| ERROR_CORRECT_H.

(** Share of the symbol that can be restored, in percent, as the
    package documents its four constants. *)
Definition recovery_percent (l : error_correction) : nat :=
  match l with
  | ERROR_CORRECT_L => 7
  | ERROR_CORRECT_M => 15
  | ERROR_CORRECT_Q => 25
  | ERROR_CORRECT_H => 30
  end.

(** The arguments of [qrcode.QRCode(...)] and the data added so far. *)
Record QRCode : Set := mkQRCode {
  version : option nat;
  error_correction_level : error_correction;
  box_size : nat;
  border : nat;
  data_list : list string
}.

(** [qr.add_data(data)]. *)
Definition add_data (qr : QRCode) (data : string) : QRCode :=
  {| version := version qr;
     error_correction_level := error_correction_level qr;
     box_size := box_size qr;
     border := border qr;
     data_list := (data_list qr ++ [data])%list |}.

(** What the wrapper needs of the package: [make(fit)] lays out the
    symbol for the object's data; [make_image(fill_color,
    back_color)] rasterises it; [save(buffer, format)] serialises
    the image into the bytes read back with [getvalue()]. *)
Record Library : Type := mkLibrary {
  symbol : Type;
  image : Type;
  make : QRCode -> bool -> symbol;
  make_image : QRCode -> symbol -> string -> string -> image;
  save : image -> string -> list Byte.byte
}.

End QR.

(** ** [generate_qr_code_base64] *)

(** The object built by [qrcode.QRCode(version=1,
    error_correction=ERROR_CORRECT_H, box_size=10, border=4)]. *)
Definition qr_settings : QR.QRCode :=
  {| QR.version := Some 1;
     QR.error_correction_level := QR.ERROR_CORRECT_H;
     QR.box_size := 10;
     QR.border := 4;
     QR.data_list := [] |}.

(** The bytes of the PNG image for [data]. *)
Definition qr_png (lib : QR.Library) (data : string) : list Byte.byte :=
  let qr := QR.add_data qr_settings data in
  let sym := QR.make lib qr true in
  let img := QR.make_image lib qr sym "black" "white" in
  QR.save lib img "PNG".

Definition generate_qr_code_base64 (lib : QR.Library) (data : option string)
  : option string :=
  match data with
  | None => None
  | Some data =>
      if negb (Str.truthy data) then None
      else Some (Base64.b64encode (qr_png lib data))
  end.

(** ** Sample values *)

(** The float [150.0]. *)
Definition f150 : spec_float := S754_finite false 5277655813324800 (-45).
(** The floats [0.0] and [-0.0]. *)
Definition f0 : spec_float := S754_zero false.
Definition fneg0 : spec_float := S754_zero true.
(** The float [1.0]. *)
Definition f1 : spec_float := S754_finite false 4503599627370496 (-52).
(** The float [0.125], half-way between [0.12] and [0.13]. *)
Definition f0_125 : spec_float := S754_finite false 4503599627370496 (-55).
(** The float [0.375], half-way between [0.37] and [0.38]. *)
Definition f0_375 : spec_float := S754_finite false 6755399441055744 (-54).
(** The float nearest to [2.675], which lies below it. *)
Definition f2_675 : spec_float := S754_finite false 6023564501608038 (-51).
(** The float [inf]. *)
Definition finf : spec_float := S754_infinity false.

(** A stand-in for the package that writes the data itself into the
    image bytes; it serves to run the wrapper on examples. *)
Definition echo_library : QR.Library :=
  {| QR.symbol := string;
     QR.image := string;
     QR.make := fun qr _ => String.concat "" (QR.data_list qr);
     QR.make_image := fun _ sym _ _ => sym;
     QR.save := fun img _ => list_byte_of_string img |}.

(** ** Reading base64 text back

    The inverse of [Base64.b64encode] on the texts it produces; it
    serves to show that the encoding loses nothing. *)

Module Base64Read.

Fixpoint index_of (c : ascii) (s : string) : option N :=
  match s with
  | EmptyString => None
  | String d s' =>
      if Ascii.eqb c d then Some 0%N else option_map N.succ (index_of c s')
  end.

Definition unsextet (c : ascii) : option N := index_of c Base64.alphabet.

Definition octet (n : N) : Byte.byte :=
  match Byte.of_N (n mod 256) with
  | Some b => b
  | None => Byte.x00
  end.

Fixpoint b64decode (s : string) : list Byte.byte :=
  match s with
  | String c1 (String c2 (String c3 (String c4 rest))) =>
      match unsextet c1, unsextet c2, unsextet c3, unsextet c4 with
      | Some s1, Some s2, Some s3, Some s4 =>
          let n := (s1 * 262144 + s2 * 4096 + s3 * 64 + s4)%N in
          octet (n / 65536) :: octet (n / 256) :: octet n :: b64decode rest
      | Some s1, Some s2, Some s3, None =>
          let n := (s1 * 262144 + s2 * 4096 + s3 * 64)%N in
          [octet (n / 65536); octet (n / 256)]
      | Some s1, Some s2, None, _ =>
          let n := (s1 * 262144 + s2 * 4096)%N in
          [octet (n / 65536)]
      | _, _, _, _ => []
      end
  | _ => []
  end.

(** A character of base64 text: one of the alphabet, or the padding. *)
Definition b64_char (c : ascii) : bool := Str.mem c (Base64.alphabet ++ "=").

End Base64Read.

(** ** The page script: button handlers and the session state

    Lines 161 to 223 of [main.py].  The script runs from top to bottom
    on every interaction; [st.session_state] carries values from one
    run to the next.  The script is the only writer of the session
    state and writes six keys, each with values of one type, so the
    state is a record with one optional field per key: [None] for a
    key that is absent.  Reading an absent key raises [KeyError].
    The widgets' values and the readings of the clock are inputs of a
    run; the calls that draw on the page are collected as events. *)

Module App.

Definition MERCHANT_UPI_ID : string := "costacoffee@upi".
Definition MERCHANT_NAME : string := "Costa Coffee".

Inductive exn : Set :=
| KeyError (key : string).

Inductive outcome (A : Type) : Type :=
| Returned (a : A)
| Raised (e : exn).
Arguments Returned {A} a.
Arguments Raised {A} e.

(** The dictionary stored under ['receipt_details']. *)
Record receipt : Set := mkReceipt {
  transaction_id : string;
  date_time : string;
  amount_text : string;
  receipt_payment_method : string;
  receipt_customer_upi_id : string;
  shop_name : string
}.

(** [st.session_state].  ['upi_link'] holds a link or [None]. *)
Record session : Set := mkSession {
  upi_link : option (option string);
  show_qr : option bool;
  show_receipt : option bool;
  transaction_done : option bool;
  payment_method : option string;
  receipt_details : option receipt
}.

(** The session state of a new session: no key. *)
Definition empty_session : session :=
  mkSession None None None None None None.

(** The three readings of [datetime.now()] in the receipt, as the
    script uses them: [strftime('%Y%m%d%H%M%S')] of the first,
    [microsecond] of the second, [strftime("%Y-%m-%d %H:%M:%S")] of
    the third. *)
Record clock : Set := mkClock {
  stamp : string;
  microsecond : N;
  stamp_date_time : string
}.

(** The values of the widgets in one run. *)
Record inputs : Set := mkInputs {
  amount : spec_float;
  customer_upi_id : string;
  generate_qr_clicked : bool;
  send_request_clicked : bool;
  generate_receipt_clicked : bool;
  now : clock
}.

(** Calls that draw on the page. *)
Inductive event : Set :=
| st_success (body : string)
| st_error (body : string)
| st_info (body : string)
| st_markdown (body : string)
| st_image (image caption : string) (width : nat).

(** [bool(x)] for a float: every value but the zeros. *)
Definition float_truthy (x : spec_float) : bool :=
  match x with
  | S754_zero _ => false
  | _ => true
  end.

(** [bool(x)] for a link or [None]. *)
Definition link_truthy (x : option string) : bool :=
  match x with
  | Some s => Str.truthy s
  | None => false
  end.

(** The body of [if st.button("Generate QR Code")], lines 166 to 178. *)
Definition on_generate_qr (amount : spec_float) (ss : session)
  : session * list event :=
  if float_truthy amount && FloatFormat.gt_zero amount then
    let link :=
      generate_upi_link (Some MERCHANT_UPI_ID) (Some MERCHANT_NAME) (Some amount) in
    if link_truthy link then
      ({| upi_link := Some link;
          show_qr := Some true;
          show_receipt := Some false;
          transaction_done := Some false;
          payment_method := Some "QR Code Scan";
          receipt_details := receipt_details ss |},
       [st_success "QR Code generated!"])
    else (ss, [st_error "Could not generate UPI link. Please check inputs."])
  else (ss, [st_error "Please enter a valid amount to generate a QR code."]).

(** The body of [if st.button("Send Request (UPI ID)")], lines 182 to
    194. *)
Definition on_send_request (amount : spec_float) (customer_upi_id : string)
    (ss : session) : session * list event :=
  if float_truthy amount && FloatFormat.gt_zero amount
     && Str.truthy customer_upi_id then
    let link :=
      generate_upi_link (Some customer_upi_id) (Some MERCHANT_NAME) (Some amount) in
    if link_truthy link then
      ({| upi_link := Some link;
          show_qr := Some false;
          show_receipt := Some false;
          transaction_done := Some false;
          payment_method := Some "UPI ID Request";
          receipt_details := receipt_details ss |},
       [st_info ("Simulating request sent to " ++ customer_upi_id ++ " for ₹"
                   ++ FloatFormat.format_2f amount ++ ".")])
    else (ss, [st_error "Could not generate UPI link. Please check inputs."])
  else (ss, [st_error
               "Please enter a valid amount and customer UPI ID to send a request."]).

(** The QR code display, lines 197 to 205. *)
Definition qr_display (lib : QR.Library) (ss : session) : list event :=
  match show_qr ss, upi_link ss with
  | Some true, Some link =>
      [st_markdown "<div class='qr-container'>";
       st_markdown "<p>Scan this QR Code to Pay</p>"]
      ++ match generate_qr_code_base64 lib link, link with
         | Some qr_base64, Some text =>
             if Str.truthy qr_base64 then
               [st_image ("data:image/png;base64," ++ qr_base64)
                  "Payment QR Code" 250;
                st_markdown
                  ("<p style='font-size:0.85rem; color:#666; word-break: break-all;'>UPI Link: "
                     ++ text ++ "</p>")]
             else []
         | _, _ => []
         end
      ++ [st_markdown "</div>"; st_markdown "---"]
  | _, _ => []
  end.

(** The condition of lines 208 and 209,
    ['upi_link' in s and s['upi_link'] and 'transaction_done' not in s
     or not s['transaction_done']]: [and] binds tighter than [or], so
    the last operand is read whenever the first three do not all
    hold. *)
Definition receipt_condition (ss : session) : outcome bool :=
  let link_present := match upi_link ss with Some _ => true | None => false end in
  let link_set := match upi_link ss with Some l => link_truthy l | None => false end in
  let done_absent := match transaction_done ss with Some _ => false | None => true end in
  if link_present && link_set && done_absent then Returned true
  else match transaction_done ss with
       | Some done => Returned (negb done)
       | None => Raised (KeyError "transaction_done")
       end.

(** The body of [if st.button("Generate Receipt")], lines 211 to 223. *)
Definition on_generate_receipt (amount : spec_float) (customer_upi_id : string)
    (now : clock) (ss : session) : session * list event :=
  ({| upi_link := Some None;
      show_qr := Some false;
      show_receipt := Some true;
      transaction_done := Some true;
      payment_method := payment_method ss;
      receipt_details :=
        Some {| transaction_id :=
                  "TXN" ++ stamp now ++ "-" ++ FloatFormat.decimal (microsecond now);
                date_time := stamp_date_time now;
                amount_text := "₹" ++ FloatFormat.format_2f amount;
                receipt_payment_method :=
                  match payment_method ss with
                  | Some m => m
                  | None => "N/A"
                  end;
                receipt_customer_upi_id :=
                  if Str.truthy customer_upi_id then customer_upi_id else "N/A";
                shop_name := MERCHANT_NAME |} |},
   [st_success "Receipt generated!"]).

(** Lines 161 to 223 in one run: the two buttons, the QR display, and
    the receipt button, which is drawn only where the condition
    holds.  An exception ends the run. *)
Definition handlers (lib : QR.Library) (inp : inputs) (ss : session)
  : outcome (session * list event) :=
  let '(ss1, out1) :=
    if generate_qr_clicked inp then on_generate_qr (amount inp) ss
    else (ss, []) in
  let '(ss2, out2) :=
    if send_request_clicked inp
    then on_send_request (amount inp) (customer_upi_id inp) ss1
    else (ss1, []) in
  let out3 := qr_display lib ss2 in
  match receipt_condition ss2 with
  | Raised e => Raised e
  | Returned false => Returned (ss2, out1 ++ out2 ++ out3)%list
  | Returned true =>
      if generate_receipt_clicked inp then
        let '(ss3, out4) :=
          on_generate_receipt (amount inp) (customer_upi_id inp) (now inp) ss2 in
        Returned (ss3, out1 ++ out2 ++ out3 ++ out4)%list
      else Returned (ss2, out1 ++ out2 ++ out3)%list
  end.

(** The states the script moves between: no key yet; a link waiting
    for its receipt; a receipt made and the link cleared. *)
Definition pending (ss : session) : Prop :=
  (exists link, upi_link ss = Some (Some link) /\ link <> "") /\
  (exists b, show_qr ss = Some b) /\
  show_receipt ss = Some false /\
  transaction_done ss = Some false /\
  (exists m, payment_method ss = Some m).

Definition receipted (ss : session) : Prop :=
  upi_link ss = Some None /\
  show_qr ss = Some false /\
  show_receipt ss = Some true /\
  transaction_done ss = Some true /\
  (exists m, payment_method ss = Some m) /\
  (exists r, receipt_details ss = Some r).

End App.

(** ** The state around a call

    What a call of [generate_upi_link] could read or change: the
    session state and the page of the script, and the one piece of
    state inside [urllib.parse] that [quote] works with.  For each
    value of [safe] the module keeps a [_Quoter], a dict from octets
    to their escaped text that [__missing__] fills on first use and
    that lives as long as the process. *)

Module Runtime.












End Runtime.


(** The float nearest to [0.004]. *)
Definition f0_004 : spec_float := S754_finite false 4611686018427388 (-60).
(** The float nearest to [150.001]. *)
Definition f150_001 : spec_float := S754_finite false 5277690997696889 (-45).

(** * Properties *)

Example format_2f_half_even_down : FloatFormat.format_2f f0_125 = "0.12".
Proof. vm_compute. reflexivity. Qed.

Example format_2f_half_even_up : FloatFormat.format_2f f0_375 = "0.38".
Proof. vm_compute. reflexivity. Qed.

Example format_2f_below_half : FloatFormat.format_2f f2_675 = "2.67".
Proof. vm_compute. reflexivity. Qed.

Example quote_example : UrlParse.quote "a b&c=d/é~%" = "a%20b%26c%3Dd/%C3%A9~%25".
Proof. vm_compute. reflexivity. Qed.

Example b64encode_example :
  Base64.b64encode (list_byte_of_string "Many hands") = "TWFueSBoYW5kcw==".
Proof. vm_compute. reflexivity. Qed.

Example read_fixed2_example : FloatFormat.read_fixed2 "150.00" = Some 15000%N.
Proof. vm_compute. reflexivity. Qed.

(** ** Facts about strings *)

Section StrFacts.

Lemma append_assoc (a b c : string) : (a ++ b) ++ c = a ++ (b ++ c).
Proof. induction a as [|x a IH]; simpl; [reflexivity | now rewrite IH]. Qed.

Lemma length_append (a b : string) :
  String.length (a ++ b) = String.length a + String.length b.
Proof. induction a as [|x a IH]; simpl; [reflexivity | now rewrite IH]. Qed.

Lemma mem_append (c : ascii) (a b : string) :
  Str.mem c (a ++ b) = Str.mem c a || Str.mem c b.
Proof.
  induction a as [|x a IH]; simpl; [reflexivity|].
  now rewrite IH, orb_assoc.
Qed.

Lemma forallb_append (p : ascii -> bool) (a b : string) :
  Str.forallb p (a ++ b) = Str.forallb p a && Str.forallb p b.
Proof.
  induction a as [|x a IH]; simpl; [reflexivity|].
  now rewrite IH, andb_assoc.
Qed.

(** A character rejected by [p] does not occur where [p] holds
    throughout. *)
Lemma forallb_not_mem (p : ascii -> bool) (c : ascii) (s : string) :
  Str.forallb p s = true -> p c = false -> Str.mem c s = false.
Proof.
  intros Hs Hc. induction s as [|x s IH]; simpl in *; [reflexivity|].
  apply andb_true_iff in Hs as [Hx Hs].
  rewrite (IH Hs), orb_false_r.
  destruct (Ascii.eqb_spec c x) as [->|]; [congruence | reflexivity].
Qed.

Lemma startswith_mem (p s : string) (c : ascii) :
  Str.startswith p s = true -> Str.mem c p = true -> Str.mem c s = true.
Proof.
  revert s. induction p as [|a p IH]; intros [|b s]; simpl; try discriminate.
  intros H Hc. apply andb_true_iff in H as [Hab Hp].
  apply Ascii.eqb_eq in Hab. subst b.
  destruct (Ascii.eqb c a); simpl in *; [reflexivity | now apply IH].
Qed.

(** A key holding a character that [s] lacks does not occur in [s]. *)
Lemma count_absent (p s : string) (c : ascii) :
  Str.mem c p = true -> Str.mem c s = false -> Str.count p s = 0.
Proof.
  intros Hp. induction s as [|b s IH]; [reflexivity|].
  intros Hs. cbn [Str.count].
  destruct (Str.startswith p (String b s)) eqn:E.
  - apply (startswith_mem _ _ c) in E; [congruence | assumption].
  - simpl in Hs. apply orb_false_iff in Hs as [_ Hs]. now rewrite IH.
Qed.

(** Whether [p] starts a text is settled before a separator that
    [p] does not contain. *)
Lemma startswith_before_sep (p t r : string) (c : ascii) :
  Str.mem c p = false ->
  Str.startswith p (t ++ String c r) = Str.startswith p t.
Proof.
  revert t. induction p as [|a p IH]; intros t Hc; [now destruct t|].
  simpl in Hc. apply orb_false_iff in Hc as [Hca Hc].
  destruct t as [|b t]; simpl.
  - rewrite Ascii.eqb_sym, Hca. reflexivity.
  - now rewrite IH.
Qed.

Lemma count_before_sep (p t r : string) (c : ascii) :
  Str.mem c p = false ->
  Str.count p (t ++ String c r) = Str.count p t + Str.count p (String c r).
Proof.
  intros Hc. remember (Str.count p (String c r)) as k eqn:Hk.
  induction t as [|b t IH]; [now subst k|].
  change (String b t ++ String c r) with (String b (t ++ String c r)).
  cbn [Str.count]. rewrite IH.
  change (String b (t ++ String c r)) with (String b t ++ String c r).
  rewrite startswith_before_sep by assumption. lia.
Qed.

(** A key that does not begin with the separator is not found at it. *)
Lemma count_at_sep (p r : string) (c : ascii) :
  Str.mem c p = false -> Str.truthy p = true ->
  Str.count p (String c r) = Str.count p r.
Proof.
  intros Hc Hp. destruct p as [|a p]; [discriminate|].
  simpl in Hc. apply orb_false_iff in Hc as [Hca _].
  cbn [Str.count Str.startswith]. now rewrite Ascii.eqb_sym, Hca.
Qed.

Lemma find_before_sep (p t r : string) (c : ascii) :
  Str.mem c p = false -> Str.count p t = 0 ->
  Str.find p (t ++ String c r)
  = option_map (Nat.add (String.length t)) (Str.find p (String c r)).
Proof.
  intros Hc. remember (Str.find p (String c r)) as k eqn:Hk.
  induction t as [|b t IH]; intros H0.
  - subst k. simpl (_ ++ _). now destruct (Str.find p (String c r)).
  - change (String b t ++ String c r) with (String b (t ++ String c r)).
    cbn [Str.find].
    change (String b (t ++ String c r)) with (String b t ++ String c r).
    rewrite startswith_before_sep by assumption.
    cbn [Str.count] in H0.
    destruct (Str.startswith p (String b t)); [discriminate|].
    rewrite IH by (simpl in H0; assumption).
    now destruct k.
Qed.

Lemma find_at_sep (p r : string) (c : ascii) :
  Str.mem c p = false -> Str.truthy p = true ->
  Str.find p (String c r) = option_map S (Str.find p r).
Proof.
  intros Hc Hp. destruct p as [|a p]; [discriminate|].
  simpl in Hc. apply orb_false_iff in Hc as [Hca _].
  cbn [Str.find Str.startswith]. now rewrite Ascii.eqb_sym, Hca.
Qed.

Lemma split_nonempty (c : ascii) (s : string) : Str.split c s <> [].
Proof.
  induction s as [|b s IH]; simpl; [discriminate|].
  destruct (Ascii.eqb b c); [discriminate|].
  destruct (Str.split c s); [contradiction | discriminate].
Qed.

Lemma split_append_sep (c : ascii) (a b : string) :
  Str.split c (a ++ String c b) = (Str.split c a ++ Str.split c b)%list.
Proof.
  induction a as [|x a IH]; simpl.
  - now rewrite Ascii.eqb_refl.
  - destruct (Ascii.eqb x c); rewrite IH; [reflexivity|].
    pose proof (split_nonempty c a).
    destruct (Str.split c a); [contradiction | reflexivity].
Qed.

Lemma split_no_sep (c : ascii) (s : string) :
  Str.mem c s = false -> Str.split c s = [s].
Proof.
  induction s as [|b s IH]; simpl; [reflexivity|].
  intros H. apply orb_false_iff in H as [Hcb Hs].
  rewrite Ascii.eqb_sym, Hcb, (IH Hs). reflexivity.
Qed.

Lemma truthy_nonempty (s : string) : s <> "" <-> Str.truthy s = true.
Proof. destruct s; simpl; split; congruence. Qed.

End StrFacts.

(** ** Facts about [quote] *)

Section QuoteFacts.

Import UrlParse.

Let safe : string := ALWAYS_SAFE ++ "/".

Local Ltac each_octet c :=
  destruct c as [[|] [|] [|] [|] [|] [|] [|] [|]].

Lemma quote_from_bytes_append (a b sf : string) :
  quote_from_bytes (a ++ b) sf
  = quote_from_bytes a sf ++ quote_from_bytes b sf.
Proof.
  induction a as [|x a IH]; [reflexivity|].
  change (String x a ++ b) with (String x (a ++ b)).
  cbn [quote_from_bytes]. now rewrite IH, append_assoc.
Qed.

Lemma quote_append (a b : string) : quote (a ++ b) = quote a ++ quote b.
Proof. apply quote_from_bytes_append. Qed.

Lemma unquote_quoter (c : ascii) (r : string) :
  unquote (quoter safe c ++ r) = String c (unquote r).
Proof. each_octet c; reflexivity. Qed.

Lemma unquote_quote (s : string) : unquote (quote s) = s.
Proof.
  unfold quote. induction s as [|c s IH]; [reflexivity|].
  cbn [quote_from_bytes]. fold safe. rewrite unquote_quoter.
  unfold safe. now rewrite IH.
Qed.

Lemma pct_encoded_quoter (c : ascii) (r : string) :
  pct_encoded safe (quoter safe c ++ r) = pct_encoded safe r.
Proof. each_octet c; reflexivity. Qed.

Lemma pct_encoded_quote (s : string) : pct_encoded safe (quote s) = true.
Proof.
  unfold quote. induction s as [|c s IH]; [reflexivity|].
  cbn [quote_from_bytes]. fold safe. rewrite pct_encoded_quoter.
  exact IH.
Qed.

Lemma quoter_clean (c : ascii) :
  Str.forallb (fun x => negb (needs_escape x)) (quoter safe c) = true.
Proof. each_octet c; reflexivity. Qed.

Lemma quote_clean (s : string) :
  Str.forallb (fun x => negb (needs_escape x)) (quote s) = true.
Proof.
  unfold quote. induction s as [|c s IH]; [reflexivity|].
  cbn [quote_from_bytes]. fold safe.
  now rewrite forallb_append, quoter_clean.
Qed.

Lemma quoter_escapes (c : ascii) :
  needs_escape c = true ->
  quoter safe c
  = String "%" (String (hex_upper (N_of_ascii c / 16))
                  (String (hex_upper (N_of_ascii c mod 16)) "")).
Proof. each_octet c; intros H; solve [reflexivity | discriminate H]. Qed.

Lemma quote_no_amp (s : string) : Str.mem "&" (quote s) = false.
Proof. now apply (forallb_not_mem _ _ _ (quote_clean s)). Qed.

Lemma quote_no_eq (s : string) : Str.mem "=" (quote s) = false.
Proof. now apply (forallb_not_mem _ _ _ (quote_clean s)). Qed.

End QuoteFacts.

(** ** Facts about the ['.2f'] format *)

Section FormatFacts.

Import FloatFormat.

Lemma round_half_even_spec (num den : Z) :
  (0 < den)%Z -> nearest_even num den (round_half_even num den).
Proof.
  intros Hden. unfold nearest_even, round_half_even.
  pose proof (Z.div_mod num den ltac:(lia)) as Hdm.
  pose proof (Z.mod_pos_bound num den Hden) as Hr.
  set (q := (num / den)%Z) in *. set (r := (num mod den)%Z) in *.
  destruct (Z.compare_spec (2 * r) den) as [E|E|E].
  - destruct (Z.even q) eqn:Hq.
    + replace (num - q * den)%Z with r by lia. split; [lia | auto].
    + replace (num - (q + 1) * den)%Z with (r - den)%Z by lia.
      split; [lia|]. intros _.
      rewrite Z.add_1_r, Z.even_succ, <- Z.negb_even, Hq. reflexivity.
  - replace (num - q * den)%Z with r by lia. split; lia.
  - replace (num - (q + 1) * den)%Z with (r - den)%Z by lia. split; lia.
Qed.

Lemma hundredths_spec (m : positive) (e : Z) :
  nearest_even (hundredfold_num m e) (hundredfold_den e) (hundredths m e).
Proof.
  unfold hundredfold_num, hundredfold_den, hundredths.
  destruct (Z.leb_spec 0 e) as [He|He].
  - rewrite Z.max_l, Z.max_r by lia.
    change (2 ^ 0)%Z with 1%Z. unfold nearest_even. split; lia.
  - rewrite Z.max_r, Z.max_l by lia.
    change (2 ^ 0)%Z with 1%Z. rewrite Z.mul_1_r.
    apply round_half_even_spec. apply Z.pow_pos_nonneg; lia.
Qed.

Lemma hundredths_nonneg (m : positive) (e : Z) : (0 <= hundredths m e)%Z.
Proof.
  unfold hundredths. destruct (Z.leb_spec 0 e) as [He|He].
  - pose proof (Z.pow_nonneg 2 e ltac:(lia)). nia.
  - assert (Hd : (0 < 2 ^ (- e))%Z) by (apply Z.pow_pos_nonneg; lia).
    unfold round_half_even.
    pose proof (Z.div_pos (100 * Z.pos m) (2 ^ (- e)) ltac:(lia) Hd).
    destruct (2 * ((100 * Z.pos m) mod 2 ^ (- e)) ?= 2 ^ (- e))%Z; try lia.
    destruct (Z.even _); lia.
Qed.

Lemma string_of_uint_digits (d : Decimal.uint) :
  Str.forallb Str.is_digit (NilEmpty.string_of_uint d) = true.
Proof. induction d; simpl; auto. Qed.

Lemma decimal_digits (n : N) : Str.forallb Str.is_digit (decimal n) = true.
Proof. apply string_of_uint_digits. Qed.

Lemma decimal_truthy (n : N) : Str.truthy (decimal n) = true.
Proof.
  unfold decimal. destruct n as [|p]; [reflexivity|].
  pose proof (DecimalPos.Unsigned.to_uint_nonnil p) as H.
  simpl. destruct (Pos.to_uint p); [contradiction | reflexivity ..].
Qed.

Lemma digit_is_digit (k : N) : (k < 10)%N -> Str.is_digit (digit k) = true.
Proof.
  intros H.
  assert (E : In k [0; 1; 2; 3; 4; 5; 6; 7; 8; 9]%N) by (simpl; lia).
  simpl in E. intuition (subst; reflexivity).
Qed.

(** Two digits read back as the number they were written from. *)
Lemma two_digits_value (a b : N) :
  (a < 10)%N -> (b < 10)%N ->
  option_map N.of_uint
    (NilEmpty.uint_of_string (String (digit a) (String (digit b) "")))
  = Some (10 * a + b)%N.
Proof.
  intros Ha Hb.
  assert (Ea : In a [0; 1; 2; 3; 4; 5; 6; 7; 8; 9]%N) by (simpl; lia).
  assert (Eb : In b [0; 1; 2; 3; 4; 5; 6; 7; 8; 9]%N) by (simpl; lia).
  simpl in Ea, Eb.
  intuition (subst; reflexivity).
Qed.

(** The text written for [c] hundredths: digits and one point. *)
Lemma fixed2_chars (x : ascii) (c : N) :
  Str.is_digit x = false -> Ascii.eqb x "." = false ->
  Str.mem x (fixed2 c) = false.
Proof.
  intros Hx Hp. unfold fixed2. rewrite mem_append.
  apply orb_false_iff. split.
  - apply (forallb_not_mem Str.is_digit); [apply decimal_digits | assumption].
  - assert (Ha : (c mod 100 / 10 < 10)%N).
    { apply N.Div0.div_lt_upper_bound. apply N.mod_lt. discriminate. }
    assert (Hb : (c mod 10 < 10)%N) by (apply N.mod_lt; discriminate).
    apply digit_is_digit in Ha, Hb.
    cbn [Str.mem]. rewrite Hp.
    destruct (Ascii.eqb_spec x (digit (c mod 100 / 10))) as [->|]; [congruence|].
    destruct (Ascii.eqb_spec x (digit (c mod 10))) as [->|]; [congruence|].
    reflexivity.
Qed.

Lemma read_fixed2_fixed2 (c : N) : read_fixed2 (fixed2 c) = Some c.
Proof.
  assert (Ha : (c mod 100 / 10 < 10)%N).
  { apply N.Div0.div_lt_upper_bound. apply N.mod_lt. discriminate. }
  assert (Hb : (c mod 10 < 10)%N) by (apply N.mod_lt; discriminate).
  unfold read_fixed2, fixed2.
  rewrite split_append_sep.
  rewrite split_no_sep
    by (apply (forallb_not_mem Str.is_digit); [apply decimal_digits | reflexivity]).
  rewrite split_no_sep.
  2:{ pose proof (digit_is_digit _ Ha) as Da. pose proof (digit_is_digit _ Hb) as Db.
      cbn [Str.mem].
      destruct (Ascii.eqb_spec "."%char (digit (c mod 100 / 10))) as [E|_];
        [rewrite <- E in Da; discriminate|].
      destruct (Ascii.eqb_spec "."%char (digit (c mod 10))) as [E|_];
        [rewrite <- E in Db; discriminate|].
      reflexivity. }
  cbn [app]. rewrite decimal_truthy. cbn [String.length Nat.eqb andb].
  unfold decimal at 1. rewrite NilEmpty.usu.
  pose proof (two_digits_value _ _ Ha Hb) as H2.
  destruct (NilEmpty.uint_of_string _) as [d|] in H2 |- *; [|discriminate].
  cbn [option_map] in H2.
  assert (H3 : N.of_uint d = (10 * (c mod 100 / 10) + c mod 10)%N) by congruence.
  rewrite DecimalN.Unsigned.of_to, H3. f_equal.
  pose proof (N.div_mod (c mod 100) 10 ltac:(discriminate)).
  zify. Z.to_euclidean_division_equations. lia.
Qed.

(** No text of the format holds an ampersand or an equals sign. *)
Lemma format_2f_chars (x : ascii) (a : spec_float) :
  Str.mem x "0123456789.-infa" = false -> Str.mem x (format_2f a) = false.
Proof.
  intros Hx.
  assert (Hd : Str.is_digit x = false).
  { unfold Str.is_digit. revert Hx. cbn [Str.mem].
    repeat (destruct (Ascii.eqb x _); [discriminate|]). reflexivity. }
  assert (Hp : Ascii.eqb x "." = false).
  { revert Hx. cbn [Str.mem].
    repeat (destruct (Ascii.eqb x _); [discriminate|]). reflexivity. }
  assert (Hs : forall s, Str.mem x (sign s) = false).
  { intros [|]; [|reflexivity]. revert Hx. cbn [Str.mem sign].
    repeat (destruct (Ascii.eqb x _); [discriminate|]). reflexivity. }
  destruct a as [s|s| |s m e]; cbn [format_2f].
  - rewrite mem_append, Hs. revert Hx. cbn [Str.mem].
    repeat (destruct (Ascii.eqb x _); [discriminate|]). reflexivity.
  - rewrite mem_append, Hs. revert Hx. cbn [Str.mem].
    repeat (destruct (Ascii.eqb x _); [discriminate|]). reflexivity.
  - revert Hx. cbn [Str.mem].
    repeat (destruct (Ascii.eqb x _); [discriminate|]). reflexivity.
  - rewrite mem_append, Hs. now apply fixed2_chars.
Qed.

Lemma le_zero_not_gt_zero (x : spec_float) :
  le_zero x = true -> gt_zero x = false.
Proof. destruct x as [[|]|[|]| |[|] m e]; compute; congruence. Qed.

(** The finite floats above zero. *)
Lemma gt_zero_finite (x : spec_float) :
  gt_zero x = true -> is_finite x = true ->
  exists m e, x = S754_finite false m e.
Proof.
  destruct x as [[|]|[|]| |[|] m e]; compute; try discriminate.
  intros _ _. now exists m, e.
Qed.

End FormatFacts.

(** ** The link and its four fields *)

Section LinkFacts.

Import FloatFormat UrlParse.

(** Four texts joined by ampersands. *)
Local Abbreviation joined t1 t2 t3 t4 :=
  (t1 ++ String "&" (t2 ++ String "&" (t3 ++ String "&" t4))).

(** On valid arguments the function returns the four fields joined
    by ampersands. *)
Lemma generate_upi_link_valid (upi_id name : string) (amount : spec_float) :
  upi_id <> "" -> name <> "" -> gt_zero amount = true ->
  generate_upi_link (Some upi_id) (Some name) (Some amount)
  = Some (joined ("upi://pay?pa=" ++ upi_id) ("pn=" ++ quote name)
            ("am=" ++ format_2f amount) "cu=INR").
Proof.
  intros Hid Hname Hgt. unfold generate_upi_link.
  apply truthy_nonempty in Hid, Hname. rewrite Hid, Hname, Hgt.
  reflexivity.
Qed.

Lemma count_joined (k t1 t2 t3 t4 : string) :
  Str.mem "&" k = false -> Str.truthy k = true ->
  Str.count k (joined t1 t2 t3 t4)
  = Str.count k t1 + Str.count k t2 + Str.count k t3 + Str.count k t4.
Proof.
  intros Hk Ht.
  rewrite !count_before_sep, !count_at_sep by assumption.
  rewrite !count_before_sep, !count_at_sep by assumption.
  rewrite !count_before_sep, !count_at_sep by assumption.
  lia.
Qed.

Lemma rev_split_joined (t1 t2 t3 t4 : string) :
  Str.mem "&" t2 = false -> Str.mem "&" t3 = false -> Str.mem "&" t4 = false ->
  rev (Str.split "&" (joined t1 t2 t3 t4))
  = t4 :: t3 :: t2 :: rev (Str.split "&" t1).
Proof.
  intros H2 H3 H4.
  rewrite !split_append_sep.
  rewrite (split_no_sep _ t2 H2), (split_no_sep _ t3 H3), (split_no_sep _ t4 H4).
  rewrite rev_app_distr. reflexivity.
Qed.

Lemma pn_field_no_amp (name : string) : Str.mem "&" ("pn=" ++ quote name) = false.
Proof. rewrite mem_append, quote_no_amp. reflexivity. Qed.

Lemma am_field_no_amp (a : spec_float) : Str.mem "&" ("am=" ++ format_2f a) = false.
Proof. rewrite mem_append, format_2f_chars; reflexivity. Qed.

Lemma count_pn_field (k name : string) :
  Str.mem "=" k = true -> Str.count k (quote name) = 0.
Proof. intros Hk. apply (count_absent _ _ "="); [assumption | apply quote_no_eq]. Qed.

Lemma count_am_field (k : string) (a : spec_float) :
  Str.mem "=" k = true -> Str.count k (format_2f a) = 0.
Proof.
  intros Hk. apply (count_absent _ _ "="); [assumption|].
  now apply format_2f_chars.
Qed.

End LinkFacts.

(** * The claims *)

(** C1. [generate_upi_link("costacoffee@upi", "Costa Coffee", 150.00)]
    returns exactly
    ["upi://pay?pa=costacoffee@upi&pn=Costa%20Coffee&am=150.00&cu=INR"]. *)
Theorem costa_coffee_150_link :
  generate_upi_link (Some "costacoffee@upi") (Some "Costa Coffee") (Some f150)
  = Some "upi://pay?pa=costacoffee@upi&pn=Costa%20Coffee&am=150.00&cu=INR".
Proof. vm_compute. reflexivity. Qed.

(** C2. When the payee id is empty or [None], or the payee name is
    empty or [None], or the amount is [None] or at most zero, the
    function returns [None]; being a total function into an option, it
    raises nothing. *)
Theorem invalid_input_gives_none
    (upi_id name : option string) (amount : option spec_float) :
  upi_id = None \/ upi_id = Some "" \/
  name = None \/ name = Some "" \/
  amount = None \/ (exists x, amount = Some x /\ FloatFormat.le_zero x = true) ->
  generate_upi_link upi_id name amount = None.
Proof.
  intros [H|[H|[H|[H|[H|(x & H & Hx)]]]]]; subst;
    unfold generate_upi_link.
  - reflexivity.
  - destruct name, amount; reflexivity.
  - destruct upi_id; reflexivity.
  - destruct upi_id as [u|]; [|reflexivity].
    destruct amount; [|reflexivity].
    now rewrite andb_false_r.
  - destruct upi_id, name; reflexivity.
  - destruct upi_id as [u|], name as [n|]; try reflexivity.
    now rewrite (le_zero_not_gt_zero x Hx), andb_false_r.
Qed.

(** Amount zero with the shop's id and name. *)
Lemma invalid_input_gives_none_witness :
  generate_upi_link (Some "costacoffee@upi") (Some "Costa Coffee") (Some f0) = None.
Proof.
  apply invalid_input_gives_none.
  do 5 right. exists f0. split; reflexivity.
Defined.

(** C3, as the spec states it, fails: a payee id that itself holds
    ["pa="] is copied into the link, which then holds that key twice. *)
Lemma keys_once_counterexample :
  "pa=" <> "" /\ "n" <> "" /\ FloatFormat.gt_zero f1 = true /\
  ~ (exists link,
       generate_upi_link (Some "pa=") (Some "n") (Some f1) = Some link /\
       Str.count "pa=" link = 1).
Proof.
  repeat split; try discriminate.
  intros (link & Hl & Hc).
  vm_compute in Hl. injection Hl as <-.
  vm_compute in Hc. discriminate.
Qed.

(** Searching past a field that does not hold the key. *)
Local Ltac skip_field absent :=
  rewrite find_before_sep;
  [rewrite find_at_sep by reflexivity | reflexivity | simpl; absent].

(** C3, amended.  For valid arguments whose payee id holds none of
    ["pa="], ["pn="], ["am="], ["cu="], the returned link holds each of
    these four exactly once, at positions that increase in this
    order. *)
Theorem keys_once_in_order (upi_id name : string) (amount : spec_float) :
  upi_id <> "" -> name <> "" -> FloatFormat.gt_zero amount = true ->
  Str.count "pa=" upi_id = 0 -> Str.count "pn=" upi_id = 0 ->
  Str.count "am=" upi_id = 0 -> Str.count "cu=" upi_id = 0 ->
  exists link,
    generate_upi_link (Some upi_id) (Some name) (Some amount) = Some link /\
    Str.count "pa=" link = 1 /\ Str.count "pn=" link = 1 /\
    Str.count "am=" link = 1 /\ Str.count "cu=" link = 1 /\
    exists i1 i2 i3 i4,
      Str.find "pa=" link = Some i1 /\ Str.find "pn=" link = Some i2 /\
      Str.find "am=" link = Some i3 /\ Str.find "cu=" link = Some i4 /\
      i1 < i2 /\ i2 < i3 /\ i3 < i4.
Proof.
  intros Hid Hname Hgt Hpa Hpn Ham Hcu.
  eexists. split; [apply generate_upi_link_valid; assumption|].
  assert (C1 : forall k, Str.mem "=" k = true ->
                 Str.count k (UrlParse.quote name) = 0)
    by (intros; now apply count_pn_field).
  assert (C2 : forall k, Str.mem "=" k = true ->
                 Str.count k (FloatFormat.format_2f amount) = 0)
    by (intros; now apply count_am_field).
  repeat split.
  - rewrite count_joined by reflexivity. simpl.
    rewrite Hpa, C1, C2 by reflexivity. reflexivity.
  - rewrite count_joined by reflexivity. simpl.
    rewrite Hpn, C1, C2 by reflexivity. reflexivity.
  - rewrite count_joined by reflexivity. simpl.
    rewrite Ham, C1, C2 by reflexivity. reflexivity.
  - rewrite count_joined by reflexivity. simpl.
    rewrite Hcu, C1, C2 by reflexivity. reflexivity.
  - exists 10,
      (String.length ("upi://pay?pa=" ++ upi_id) + 1),
      (String.length ("upi://pay?pa=" ++ upi_id)
       + S (String.length ("pn=" ++ UrlParse.quote name) + 1)),
      (String.length ("upi://pay?pa=" ++ upi_id)
       + S (String.length ("pn=" ++ UrlParse.quote name)
            + S (String.length ("am=" ++ FloatFormat.format_2f amount) + 1))).
    split; [reflexivity|].
    split; [|split; [|split; [|repeat split]]].
    + skip_field ltac:(exact Hpn). reflexivity.
    + skip_field ltac:(exact Ham). skip_field ltac:(now apply C1).
      reflexivity.
    + skip_field ltac:(exact Hcu). skip_field ltac:(now apply C1).
      skip_field ltac:(now apply C2). reflexivity.
    + rewrite length_append. simpl. lia.
    + lia.
    + lia.
Qed.

Lemma keys_once_in_order_witness :
  exists link,
    generate_upi_link (Some "costacoffee@upi") (Some "Costa Coffee") (Some f150)
    = Some link /\
    Str.count "pa=" link = 1 /\ Str.count "pn=" link = 1 /\
    Str.count "am=" link = 1 /\ Str.count "cu=" link = 1 /\
    exists i1 i2 i3 i4,
      Str.find "pa=" link = Some i1 /\ Str.find "pn=" link = Some i2 /\
      Str.find "am=" link = Some i3 /\ Str.find "cu=" link = Some i4 /\
      i1 < i2 /\ i2 < i3 /\ i3 < i4.
Proof.
  apply keys_once_in_order;
    solve [discriminate | reflexivity].
Defined.

(** C4. For valid arguments the [pn] field of the returned link is the
    payee name percent-encoded: it is made of unreserved characters,
    [/] and [%XX] triplets only, so it holds no raw space, ampersand,
    equals sign or octet of a non-ASCII character; every such octet of
    the name stands in the field as its [%XX] triplet; and decoding
    the field gives the name back. *)
Theorem payee_name_percent_encoded
    (upi_id name : string) (amount : spec_float) :
  upi_id <> "" -> name <> "" -> FloatFormat.gt_zero amount = true ->
  exists link field,
    generate_upi_link (Some upi_id) (Some name) (Some amount) = Some link /\
    Str.rfield "&" 2 link = Some ("pn=" ++ field) /\
    UrlParse.pct_encoded (UrlParse.ALWAYS_SAFE ++ "/") field = true /\
    Str.forallb (fun c => negb (UrlParse.needs_escape c)) field = true /\
    (forall before c after,
        name = before ++ String c after -> UrlParse.needs_escape c = true ->
        field
        = UrlParse.quote before
            ++ String "%" (String (UrlParse.hex_upper (N_of_ascii c / 16))
                             (String (UrlParse.hex_upper (N_of_ascii c mod 16))
                                (UrlParse.quote after)))) /\
    UrlParse.unquote field = name.
Proof.
  intros Hid Hname Hgt.
  exists (("upi://pay?pa=" ++ upi_id)
            ++ String "&" (("pn=" ++ UrlParse.quote name)
            ++ String "&" (("am=" ++ FloatFormat.format_2f amount)
            ++ String "&" "cu=INR"))), (UrlParse.quote name).
  split; [now apply generate_upi_link_valid|].
  split.
  { unfold Str.rfield.
    rewrite rev_split_joined
      by first [apply pn_field_no_amp | apply am_field_no_amp | reflexivity].
    reflexivity. }
  split; [apply pct_encoded_quote|].
  split; [apply quote_clean|].
  split; [|apply unquote_quote].
  intros before c after -> Hc.
  rewrite quote_append. f_equal.
  change (UrlParse.quote (String c after))
    with (UrlParse.quoter (UrlParse.ALWAYS_SAFE ++ "/") c ++ UrlParse.quote after).
  now rewrite quoter_escapes.
Qed.

Lemma payee_name_percent_encoded_witness :
  exists link field,
    generate_upi_link (Some "costacoffee@upi") (Some "Café & Co = 1") (Some f150)
    = Some link /\
    Str.rfield "&" 2 link = Some ("pn=" ++ field) /\
    UrlParse.pct_encoded (UrlParse.ALWAYS_SAFE ++ "/") field = true /\
    Str.forallb (fun c => negb (UrlParse.needs_escape c)) field = true /\
    (forall before c after,
        "Café & Co = 1" = before ++ String c after ->
        UrlParse.needs_escape c = true ->
        field
        = UrlParse.quote before
            ++ String "%" (String (UrlParse.hex_upper (N_of_ascii c / 16))
                             (String (UrlParse.hex_upper (N_of_ascii c mod 16))
                                (UrlParse.quote after)))) /\
    UrlParse.unquote field = "Café & Co = 1".
Proof.
  apply payee_name_percent_encoded; solve [discriminate | reflexivity].
Defined.

Example quote_shop_name :
  UrlParse.quote "Café & Co = 1" = "Caf%C3%A9%20%26%20Co%20%3D%201".
Proof. vm_compute. reflexivity. Qed.

(** C5, as the spec states it, fails: [inf] is a float above zero, and
    its ['.2f'] text is ["inf"], which has no fractional digits. *)
Lemma amount_two_digits_counterexample :
  "costacoffee@upi" <> "" /\ "Costa Coffee" <> "" /\
  FloatFormat.gt_zero finf = true /\
  ~ (exists link text c,
       generate_upi_link (Some "costacoffee@upi") (Some "Costa Coffee") (Some finf)
       = Some link /\
       Str.rfield "&" 1 link = Some ("am=" ++ text) /\
       FloatFormat.read_fixed2 text = Some c).
Proof.
  repeat split; try discriminate.
  intros (link & text & c & Hl & Hf & Hr).
  vm_compute in Hl. injection Hl as <-.
  vm_compute in Hf. injection Hf as <-.
  vm_compute in Hr. discriminate.
Qed.

(** C5, amended.  For valid arguments with a finite amount [m * 2^e],
    the [am] field of the returned link is a run of digits, a point
    and exactly two digits, without exponent; the number of hundredths
    it denotes is the integer nearest to [100 * m * 2^e], and the even
    one of the two when that value lies half-way: one rounding rule
    for every amount. *)
Theorem amount_fixed_point_two_digits
    (upi_id name : string) (amount : spec_float) :
  upi_id <> "" -> name <> "" -> FloatFormat.gt_zero amount = true ->
  FloatFormat.is_finite amount = true ->
  exists m e link text c,
    amount = S754_finite false m e /\
    generate_upi_link (Some upi_id) (Some name) (Some amount) = Some link /\
    Str.rfield "&" 1 link = Some ("am=" ++ text) /\
    FloatFormat.read_fixed2 text = Some c /\
    FloatFormat.nearest_even
      (FloatFormat.hundredfold_num m e) (FloatFormat.hundredfold_den e) (Z.of_N c).
Proof.
  intros Hid Hname Hgt Hfin.
  destruct (gt_zero_finite amount Hgt Hfin) as (m & e & ->).
  exists m, e. eexists. exists (FloatFormat.format_2f (S754_finite false m e)).
  exists (Z.to_N (FloatFormat.hundredths m e)).
  split; [reflexivity|].
  split; [now apply generate_upi_link_valid|].
  split.
  { unfold Str.rfield.
    rewrite rev_split_joined
      by first [apply pn_field_no_amp | apply am_field_no_amp | reflexivity].
    reflexivity. }
  split.
  - cbn [FloatFormat.format_2f FloatFormat.sign append].
    apply read_fixed2_fixed2.
  - rewrite Z2N.id by apply hundredths_nonneg.
    apply hundredths_spec.
Qed.

Lemma amount_fixed_point_two_digits_witness :
  exists m e link text c,
    f2_675 = S754_finite false m e /\
    generate_upi_link (Some "costacoffee@upi") (Some "Costa Coffee") (Some f2_675)
    = Some link /\
    Str.rfield "&" 1 link = Some ("am=" ++ text) /\
    FloatFormat.read_fixed2 text = Some c /\
    FloatFormat.nearest_even
      (FloatFormat.hundredfold_num m e) (FloatFormat.hundredfold_den e) (Z.of_N c).
Proof.
  apply amount_fixed_point_two_digits; solve [discriminate | reflexivity].
Defined.

(** C7. An empty payload, or [None], gives [None], whatever the
    package does: the wrapper returns before it touches the package,
    as [generate_upi_link] does on invalid arguments. *)
Theorem empty_payload_gives_none (lib : QR.Library) :
  generate_qr_code_base64 lib None = None /\
  generate_qr_code_base64 lib (Some "") = None.
Proof. split; reflexivity. Qed.

(** C9. For every non-empty payload the wrapper hands the package one
    and the same settings: error correction [ERROR_CORRECT_H], the
    highest of the four levels (about 30 percent), a border of 4
    modules, boxes of 10 pixels, version 1 as the start of the search
    with [fit=True], with the payload as the only data; the result is
    the base64 text of the bytes that the package saves for this
    object, so it depends on the payload and these settings alone. *)
Theorem qr_fixed_configuration (lib : QR.Library) (c : ascii) (rest : string) :
  let payload := String c rest in
  exists (qr : QR.QRCode) (fit : bool),
    generate_qr_code_base64 lib (Some payload)
    = Some (Base64.b64encode
              (QR.save lib
                 (QR.make_image lib qr (QR.make lib qr fit) "black" "white")
                 "PNG")) /\
    fit = true /\
    QR.data_list qr = [payload] /\
    QR.version qr = Some 1 /\
    QR.box_size qr = 10 /\
    QR.border qr = 4 /\
    QR.error_correction_level qr = QR.ERROR_CORRECT_H /\
    QR.recovery_percent (QR.error_correction_level qr) = 30 /\
    (forall l, QR.recovery_percent l <= QR.recovery_percent (QR.error_correction_level qr)).
Proof.
  intros payload.
  exists (QR.add_data qr_settings payload), true.
  repeat split.
  intros [| | |]; simpl; lia.
Qed.

Example qr_wrapper_runs :
  generate_qr_code_base64 echo_library (Some "upi://pay") = Some "dXBpOi8vcGF5".
Proof. vm_compute. reflexivity. Qed.

(** C10. For valid arguments the payee id stands in the link as it was
    given, between ["upi://pay?pa="] and ["&pn="]; what follows are the
    three remaining fields and nothing else.  An ampersand, an equals
    sign or a space in the id is therefore not escaped. *)
Theorem payee_id_verbatim (upi_id name : string) (amount : spec_float) :
  upi_id <> "" -> name <> "" -> FloatFormat.gt_zero amount = true ->
  exists link rest,
    generate_upi_link (Some upi_id) (Some name) (Some amount) = Some link /\
    link = "upi://pay?pa=" ++ upi_id ++ "&pn=" ++ rest /\
    Str.split "&" rest
    = [UrlParse.quote name; "am=" ++ FloatFormat.format_2f amount; "cu=INR"].
Proof.
  intros Hid Hname Hgt.
  exists (("upi://pay?pa=" ++ upi_id)
            ++ String "&" (("pn=" ++ UrlParse.quote name)
            ++ String "&" (("am=" ++ FloatFormat.format_2f amount)
            ++ String "&" "cu=INR"))).
  exists (UrlParse.quote name
            ++ String "&" (("am=" ++ FloatFormat.format_2f amount)
            ++ String "&" "cu=INR")).
  split; [now apply generate_upi_link_valid|].
  split.
  - rewrite !append_assoc. reflexivity.
  - rewrite !split_append_sep.
    rewrite (split_no_sep _ _ (quote_no_amp name)).
    rewrite (split_no_sep _ _ (am_field_no_amp amount)).
    reflexivity.
Qed.

Lemma payee_id_verbatim_witness :
  exists link rest,
    generate_upi_link (Some "a&b=c d@upi") (Some "Costa Coffee") (Some f150)
    = Some link /\
    link = "upi://pay?pa=" ++ "a&b=c d@upi" ++ "&pn=" ++ rest /\
    Str.split "&" rest
    = [UrlParse.quote "Costa Coffee"; "am=" ++ FloatFormat.format_2f f150; "cu=INR"].
Proof.
  apply payee_id_verbatim; solve [discriminate | reflexivity].
Defined.

Example unescaped_payee_id :
  generate_upi_link (Some "a&b=c d@upi") (Some "Costa Coffee") (Some f150)
  = Some "upi://pay?pa=a&b=c d@upi&pn=Costa%20Coffee&am=150.00&cu=INR".
Proof. vm_compute. reflexivity. Qed.

(** * Further properties of the code *)

(** ** The link as input of the QR wrapper *)

Section LinkMore.

Import FloatFormat UrlParse.

Lemma append_cancel_r (a b c : string) : a ++ c = b ++ c -> a = b.
Proof.
  revert b. induction a as [|x a IH]; intros [|y b] H; simpl in H.
  - reflexivity.
  - apply (f_equal String.length) in H. simpl in H.
    rewrite length_append in H. lia.
  - apply (f_equal String.length) in H. simpl in H.
    rewrite length_append in H. lia.
  - injection H as -> H. f_equal. now apply IH.
Qed.

(** A returned link comes from valid arguments and has the four
    fields. *)
Lemma generate_upi_link_some
    (upi_id name : option string) (amount : option spec_float) (link : string) :
  generate_upi_link upi_id name amount = Some link ->
  exists u n a,
    upi_id = Some u /\ name = Some n /\ amount = Some a /\
    u <> "" /\ n <> "" /\ gt_zero a = true /\
    link = ("upi://pay?pa=" ++ u)
             ++ String "&" (("pn=" ++ quote n)
             ++ String "&" (("am=" ++ format_2f a) ++ String "&" "cu=INR")).
Proof.
  unfold generate_upi_link.
  destruct upi_id as [u|], name as [n|], amount as [a|]; try discriminate.
  destruct (Str.truthy u) eqn:Hu, (Str.truthy n) eqn:Hn, (gt_zero a) eqn:Ha;
    try discriminate.
  cbn [andb negb]. intros [= <-].
  exists u, n, a. apply truthy_nonempty in Hu, Hn.
  repeat split; assumption.
Qed.

End LinkMore.

(** X1. Whatever [generate_upi_link] returns as a link is a non-empty
    text that begins with ["upi://pay?pa="]: the truth tests applied
    to the result, [if upi_link:] in the two handlers and [not data]
    in the QR wrapper, never take a returned link for [None]. *)
Theorem returned_link_is_truthy
    (upi_id name : option string) (amount : option spec_float) (link : string) :
  generate_upi_link upi_id name amount = Some link ->
  Str.startswith "upi://pay?pa=" link = true /\
  link <> "" /\
  Str.truthy link = true /\
  App.link_truthy (generate_upi_link upi_id name amount) = true.
Proof.
  intros H. rewrite H.
  destruct (generate_upi_link_some _ _ _ _ H)
    as (u & n & a & _ & _ & _ & _ & _ & _ & ->).
  repeat split. discriminate.
Qed.

Lemma returned_link_is_truthy_witness :
  Str.startswith "upi://pay?pa="
    "upi://pay?pa=costacoffee@upi&pn=Costa%20Coffee&am=150.00&cu=INR" = true /\
  "upi://pay?pa=costacoffee@upi&pn=Costa%20Coffee&am=150.00&cu=INR" <> "" /\
  Str.truthy "upi://pay?pa=costacoffee@upi&pn=Costa%20Coffee&am=150.00&cu=INR"
  = true /\
  App.link_truthy
    (generate_upi_link (Some "costacoffee@upi") (Some "Costa Coffee") (Some f150))
  = true.
Proof.
  apply (returned_link_is_truthy
           (Some "costacoffee@upi") (Some "Costa Coffee") (Some f150)).
  vm_compute. reflexivity.
Defined.

(** X2. The link determines the payee id, the payee name and the text
    of the amount: two calls that return the same link were given the
    same id and the same name, and amounts with the same ['.2f']
    text.  This holds although the id is copied unescaped. *)
Theorem link_determines_arguments
    (upi_id1 upi_id2 name1 name2 : string) (amount1 amount2 : spec_float)
    (link : string) :
  generate_upi_link (Some upi_id1) (Some name1) (Some amount1) = Some link ->
  generate_upi_link (Some upi_id2) (Some name2) (Some amount2) = Some link ->
  upi_id1 = upi_id2 /\ name1 = name2 /\
  FloatFormat.format_2f amount1 = FloatFormat.format_2f amount2.
Proof.
  intros H1 H2.
  destruct (generate_upi_link_some _ _ _ _ H1)
    as (u1 & n1 & a1 & [= <-] & [= <-] & [= <-] & _ & _ & _ & E1).
  destruct (generate_upi_link_some _ _ _ _ H2)
    as (u2 & n2 & a2 & [= <-] & [= <-] & [= <-] & _ & _ & _ & E2).
  assert (R : rev (Str.split "&" link) = rev (Str.split "&" link)) by reflexivity.
  rewrite E1 in R at 1. rewrite E2 in R at 1.
  rewrite !rev_split_joined in R
    by first [apply pn_field_no_amp | apply am_field_no_amp | reflexivity].
  injection R as Ham Hpn _.
  apply (f_equal UrlParse.unquote) in Hpn. rewrite !unquote_quote in Hpn.
  subst name2. rewrite <- Ham in E2. rewrite E1 in E2.
  apply append_cancel_r in E2. injection E2 as E2.
  repeat split; assumption.
Qed.

Lemma link_determines_arguments_witness :
  "costacoffee@upi" = "costacoffee@upi" /\ "Costa Coffee" = "Costa Coffee" /\
  FloatFormat.format_2f f150 = FloatFormat.format_2f f150_001.
Proof.
  apply (link_determines_arguments _ _ _ _ _ _
           "upi://pay?pa=costacoffee@upi&pn=Costa%20Coffee&am=150.00&cu=INR");
    vm_compute; reflexivity.
Defined.

(** ** Amounts that round to zero *)

Section TinyAmounts.

Import FloatFormat.

Lemma nearest_even_zero (num den n : Z) :
  (0 <= num)%Z -> (0 < den)%Z -> (0 <= n)%Z ->
  nearest_even num den n ->
  (n = 0 <-> 2 * num <= den)%Z.
Proof.
  intros Hnum Hden Hn [Hnear Htie]. split.
  - intros ->. rewrite Z.mul_0_l, Z.sub_0_r in Hnear. lia.
  - intros Hsmall.
    destruct (Z.eq_dec n 0) as [|Hn0]; [assumption|exfalso].
    assert (Hge : (den <= n * den)%Z) by nia.
    assert (Hn1 : n = 1%Z) by nia.
    subst n. rewrite Z.mul_1_l in *.
    assert (E : (2 * Z.abs (num - den) = den)%Z) by lia.
    specialize (Htie E). discriminate.
Qed.

Lemma hundredfold_num_nonneg (m : positive) (e : Z) :
  (0 <= hundredfold_num m e)%Z.
Proof.
  unfold hundredfold_num.
  pose proof (Z.pow_nonneg 2 (Z.max e 0) ltac:(lia)). nia.
Qed.

Lemma hundredfold_den_pos (e : Z) : (0 < hundredfold_den e)%Z.
Proof. unfold hundredfold_den. apply Z.pow_pos_nonneg; lia. Qed.

Lemma hundredths_zero (m : positive) (e : Z) :
  (hundredths m e = 0 <-> 2 * hundredfold_num m e <= hundredfold_den e)%Z.
Proof.
  apply nearest_even_zero.
  - apply hundredfold_num_nonneg.
  - apply hundredfold_den_pos.
  - apply hundredths_nonneg.
  - apply hundredths_spec.
Qed.

Lemma fixed2_zero (c : N) : fixed2 c = "0.00" <-> c = 0%N.
Proof.
  split.
  - intros H. pose proof (read_fixed2_fixed2 c) as R. rewrite H in R.
    vm_compute in R. congruence.
  - intros ->. reflexivity.
Qed.

End TinyAmounts.

(** X3. A finite amount above zero passes the guard however small it
    is, and its [am] field reads ["0.00"] exactly when the amount
    [m * 2^e] is at most [0.005], that is when [200 * m * 2^e <= 1]:
    the link of a valid call can ask for nothing. *)
Theorem tiny_amount_reads_zero
    (upi_id name : string) (m : positive) (e : Z) :
  upi_id <> "" -> name <> "" ->
  exists link,
    generate_upi_link (Some upi_id) (Some name) (Some (S754_finite false m e))
    = Some link /\
    (Str.rfield "&" 1 link = Some "am=0.00" <->
     (2 * FloatFormat.hundredfold_num m e <= FloatFormat.hundredfold_den e)%Z).
Proof.
  intros Hid Hname. eexists.
  split; [apply generate_upi_link_valid; [assumption | assumption | reflexivity]|].
  unfold Str.rfield.
  rewrite rev_split_joined
    by first [apply pn_field_no_amp | apply am_field_no_amp | reflexivity].
  cbn [nth_error FloatFormat.format_2f FloatFormat.sign append].
  rewrite <- hundredths_zero. split.
  - intros [= H]. apply fixed2_zero in H.
    pose proof (hundredths_nonneg m e). lia.
  - intros ->. reflexivity.
Qed.

Lemma tiny_amount_reads_zero_witness :
  exists link,
    generate_upi_link (Some "costacoffee@upi") (Some "Costa Coffee") (Some f0_004)
    = Some link /\
    (Str.rfield "&" 1 link = Some "am=0.00" <->
     (2 * FloatFormat.hundredfold_num 4611686018427388 (-60)
      <= FloatFormat.hundredfold_den (-60))%Z).
Proof.
  apply tiny_amount_reads_zero; discriminate.
Defined.

Example tiny_amount_link :
  generate_upi_link (Some "costacoffee@upi") (Some "Costa Coffee") (Some f0_004)
  = Some "upi://pay?pa=costacoffee@upi&pn=Costa%20Coffee&am=0.00&cu=INR".
Proof. vm_compute. reflexivity. Qed.

(** ** Facts about [b64encode] *)

Section Base64Facts.

Import Base64 Base64Read.

Local Open Scope N_scope.

Lemma alphabet_index (j : nat) :
  (j < 64)%nat ->
  index_of (Str.char_at alphabet j "A"%char) alphabet = Some (N.of_nat j)
  /\ Str.mem (Str.char_at alphabet j "A"%char) alphabet = true.
Proof.
  intros Hj.
  do 64 (destruct j as [|j]; [split; reflexivity|]).
  lia.
Qed.

Lemma unsextet_sextet (n : N) : unsextet (sextet n) = Some (n mod 64).
Proof.
  unfold unsextet, sextet.
  assert (H : (N.to_nat (n mod 64) < 64)%nat).
  { pose proof (N.mod_lt n 64 ltac:(discriminate)). lia. }
  rewrite (proj1 (alphabet_index _ H)), N2Nat.id. reflexivity.
Qed.

Lemma sextet_in_alphabet (n : N) : Str.mem (sextet n) alphabet = true.
Proof.
  unfold sextet. apply alphabet_index.
  pose proof (N.mod_lt n 64 ltac:(discriminate)). lia.
Qed.

Lemma octet_to_N (x : Byte.byte) (k : N) : k mod 256 = Byte.to_N x -> octet k = x.
Proof. intros H. unfold octet. now rewrite H, Byte.of_to_N. Qed.

Local Ltac euclid := zify; Z.to_euclidean_division_equations; lia.

Lemma sextets_sum (n : N) :
  n < 16777216 ->
  (n / 262144) mod 64 * 262144 + (n / 4096) mod 64 * 4096
  + (n / 64) mod 64 * 64 + n mod 64 = n.
Proof. intros H. euclid. Qed.

Lemma octets_of (a b c : N) :
  a <= 255 -> b <= 255 -> c <= 255 ->
  ((a * 65536 + b * 256 + c) / 65536) mod 256 = a /\
  ((a * 65536 + b * 256 + c) / 256) mod 256 = b /\
  (a * 65536 + b * 256 + c) mod 256 = c.
Proof. intros Ha Hb Hc. repeat split; euclid. Qed.

(** Induction over a list of octets, three at a time. *)
Lemma octets_ind3 (P : list Byte.byte -> Prop) :
  P [] -> (forall a, P [a]) -> (forall a b, P [a; b]) ->
  (forall a b c rest, P rest -> P (a :: b :: c :: rest)) ->
  forall bs, P bs.
Proof.
  intros H0 H1 H2 H3.
  fix IH 1. intros [|a [|b [|c rest]]].
  - exact H0.
  - apply H1.
  - apply H2.
  - apply H3, IH.
Qed.

Lemma b64decode_group (a b c : Byte.byte) (rest : list Byte.byte) :
  b64decode (b64encode (a :: b :: c :: rest))
  = a :: b :: c :: b64decode (b64encode rest).
Proof.
  pose proof (Byte.to_N_bounded a). pose proof (Byte.to_N_bounded b).
  pose proof (Byte.to_N_bounded c).
  cbn [b64encode b64decode].
  set (n := Byte.to_N a * 65536 + Byte.to_N b * 256 + Byte.to_N c).
  rewrite !unsextet_sextet.
  rewrite sextets_sum by (subst n; lia).
  destruct (octets_of (Byte.to_N a) (Byte.to_N b) (Byte.to_N c))
    as (Ea & Eb & Ec); try assumption.
  fold n in Ea, Eb, Ec.
  now rewrite (octet_to_N a), (octet_to_N b), (octet_to_N c).
Qed.

Lemma b64decode_pair (a b : Byte.byte) : b64decode (b64encode [a; b]) = [a; b].
Proof.
  pose proof (Byte.to_N_bounded a). pose proof (Byte.to_N_bounded b).
  cbn [b64encode b64decode].
  set (n := Byte.to_N a * 65536 + Byte.to_N b * 256).
  rewrite !unsextet_sextet.
  change (unsextet "=") with (@None N). cbv iota.
  destruct (octets_of (Byte.to_N a) (Byte.to_N b) 0)
    as (Ea & Eb & _); try assumption; [lia|].
  rewrite N.add_0_r in Ea, Eb. fold n in Ea, Eb.
  replace ((n / 262144) mod 64 * 262144 + (n / 4096) mod 64 * 4096
           + (n / 64) mod 64 * 64) with n by (subst n; euclid).
  now rewrite (octet_to_N a), (octet_to_N b).
Qed.

Lemma b64decode_single (a : Byte.byte) : b64decode (b64encode [a]) = [a].
Proof.
  pose proof (Byte.to_N_bounded a).
  cbn [b64encode b64decode].
  set (n := Byte.to_N a * 65536).
  rewrite !unsextet_sextet.
  change (unsextet "=") with (@None N). cbv iota.
  destruct (octets_of (Byte.to_N a) 0 0) as (Ea & _ & _); try assumption; try lia.
  rewrite !N.add_0_r in Ea. fold n in Ea.
  replace ((n / 262144) mod 64 * 262144 + (n / 4096) mod 64 * 4096)
    with n by (subst n; euclid).
  now rewrite (octet_to_N a).
Qed.

(** Decoding what was encoded gives the octets back. *)
Lemma b64decode_b64encode (bs : list Byte.byte) : b64decode (b64encode bs) = bs.
Proof.
  induction bs as [|a|a b|a b c rest IH] using octets_ind3.
  - reflexivity.
  - apply b64decode_single.
  - apply b64decode_pair.
  - now rewrite b64decode_group, IH.
Qed.

Lemma sextet_b64_char (n : N) : b64_char (sextet n) = true.
Proof.
  unfold b64_char. rewrite mem_append, sextet_in_alphabet. reflexivity.
Qed.

Lemma b64encode_chars (bs : list Byte.byte) :
  Str.forallb b64_char (b64encode bs) = true.
Proof.
  induction bs as [|a|a b|a b c rest IH] using octets_ind3;
    cbn [b64encode Str.forallb]; rewrite ?sextet_b64_char, ?IH; reflexivity.
Qed.

Lemma b64encode_length (bs : list Byte.byte) :
  String.length (b64encode bs) = (4 * ((List.length bs + 2) / 3))%nat.
Proof.
  induction bs as [|a|a b|a b c rest IH] using octets_ind3;
    try reflexivity.
  cbn [b64encode String.length List.length]. rewrite IH.
  replace (S (S (S (List.length rest))) + 2)%nat
    with (List.length rest + 2 + 1 * 3)%nat by lia.
  rewrite Nat.div_add by discriminate. lia.
Qed.

Lemma b64encode_truthy (bs : list Byte.byte) :
  Str.truthy (b64encode bs) = match bs with [] => false | _ => true end.
Proof. destruct bs as [|a [|b [|c rest]]]; reflexivity. Qed.

End Base64Facts.

(** X4. Whenever the wrapper returns text, the text is made of the
    base64 alphabet and [=] only, four characters for every three
    octets of the image, rounded up; it is empty exactly when the
    package saved no octet. *)
Theorem returned_qr_text_is_base64
    (lib : QR.Library) (data : option string) (text : string) :
  generate_qr_code_base64 lib data = Some text ->
  exists d,
    data = Some d /\ d <> "" /\
    Str.forallb Base64Read.b64_char text = true /\
    String.length text = 4 * ((List.length (qr_png lib d) + 2) / 3) /\
    (text = "" <-> qr_png lib d = []).
Proof.
  unfold generate_qr_code_base64.
  destruct data as [d|]; try discriminate.
  destruct (Str.truthy d) eqn:Hd; try discriminate.
  cbn [negb]. intros [= <-].
  exists d. split; [reflexivity|].
  split; [now apply truthy_nonempty|].
  split; [apply b64encode_chars|].
  split; [apply b64encode_length|].
  pose proof (b64encode_truthy (qr_png lib d)) as H.
  destruct (qr_png lib d) as [|x bs] eqn:E.
  - split; reflexivity.
  - split; [|discriminate]. intros H0. rewrite H0 in H. discriminate.
Qed.

Lemma returned_qr_text_is_base64_witness :
  exists d,
    Some "upi://pay" = Some d /\ d <> "" /\
    Str.forallb Base64Read.b64_char "dXBpOi8vcGF5" = true /\
    String.length "dXBpOi8vcGF5"
    = 4 * ((List.length (qr_png echo_library d) + 2) / 3) /\
    ("dXBpOi8vcGF5" = "" <-> qr_png echo_library d = []).
Proof.
  apply (returned_qr_text_is_base64 echo_library).
  vm_compute. reflexivity.
Defined.

(** X5. The text that the wrapper returns determines the image: two
    calls that return the same text encoded the same octets. *)
Theorem qr_text_determines_image
    (lib1 lib2 : QR.Library) (data1 data2 : option string) (text : string) :
  generate_qr_code_base64 lib1 data1 = Some text ->
  generate_qr_code_base64 lib2 data2 = Some text ->
  exists d1 d2,
    data1 = Some d1 /\ data2 = Some d2 /\ qr_png lib1 d1 = qr_png lib2 d2.
Proof.
  unfold generate_qr_code_base64.
  destruct data1 as [d1|], data2 as [d2|]; try discriminate.
  destruct (Str.truthy d1), (Str.truthy d2); try discriminate.
  cbn [negb]. intros [= H1] [= H2].
  exists d1, d2. repeat split.
  rewrite <- (b64decode_b64encode (qr_png lib1 d1)),
          <- (b64decode_b64encode (qr_png lib2 d2)).
  now rewrite H1, H2.
Qed.

Lemma qr_text_determines_image_witness :
  exists d1 d2,
    Some "upi://pay" = Some d1 /\ Some "upi://pay" = Some d2 /\
    qr_png echo_library d1 = qr_png echo_library d2.
Proof.
  apply (qr_text_determines_image echo_library echo_library _ _ "dXBpOi8vcGF5");
    vm_compute; reflexivity.
Defined.

(** X6. Reading the wrapper's text back as base64 gives exactly the
    octets that the package saved for the payload. *)
Theorem qr_text_decodes_to_image
    (lib : QR.Library) (data : option string) (text : string) :
  generate_qr_code_base64 lib data = Some text ->
  exists d, data = Some d /\ d <> "" /\
            Base64Read.b64decode text = qr_png lib d.
Proof.
  unfold generate_qr_code_base64.
  destruct data as [d|]; try discriminate.
  destruct (Str.truthy d) eqn:Hd; try discriminate.
  cbn [negb]. intros [= <-].
  exists d. split; [reflexivity|].
  split; [now apply truthy_nonempty|].
  apply b64decode_b64encode.
Qed.

Lemma qr_text_decodes_to_image_witness :
  exists d, Some "upi://pay" = Some d /\ d <> "" /\
            Base64Read.b64decode "dXBpOi8vcGF5" = qr_png echo_library d.
Proof.
  apply (qr_text_decodes_to_image echo_library).
  vm_compute. reflexivity.
Defined.

(** ** The button handlers *)

Section AppFacts.

Import App.

Lemma gt_zero_truthy (a : spec_float) :
  FloatFormat.gt_zero a = true -> float_truthy a = true.
Proof. destruct a as [[|]|[|]| |[|] m e]; compute; congruence. Qed.

(** The link made for the shop. *)
Lemma merchant_link (a : spec_float) :
  FloatFormat.gt_zero a = true ->
  generate_upi_link (Some MERCHANT_UPI_ID) (Some MERCHANT_NAME) (Some a)
  = Some ("upi://pay?pa=costacoffee@upi&pn=Costa%20Coffee&am="
            ++ FloatFormat.format_2f a ++ "&cu=INR").
Proof.
  intros Ha. rewrite generate_upi_link_valid by (discriminate || assumption).
  reflexivity.
Qed.

Lemma on_generate_qr_valid (a : spec_float) (ss : session) :
  FloatFormat.gt_zero a = true ->
  on_generate_qr a ss
  = ({| upi_link :=
          Some (Some ("upi://pay?pa=costacoffee@upi&pn=Costa%20Coffee&am="
                        ++ FloatFormat.format_2f a ++ "&cu=INR"));
        show_qr := Some true;
        show_receipt := Some false;
        transaction_done := Some false;
        payment_method := Some "QR Code Scan";
        receipt_details := receipt_details ss |},
     [st_success "QR Code generated!"]).
Proof.
  intros Ha. unfold on_generate_qr.
  rewrite (gt_zero_truthy a Ha), Ha, merchant_link by assumption.
  reflexivity.
Qed.

Lemma on_generate_qr_invalid (a : spec_float) (ss : session) :
  FloatFormat.gt_zero a = false ->
  on_generate_qr a ss
  = (ss, [st_error "Please enter a valid amount to generate a QR code."]).
Proof.
  intros Ha. unfold on_generate_qr. now rewrite Ha, andb_false_r.
Qed.

Lemma on_send_request_valid (a : spec_float) (customer : string) (ss : session) :
  FloatFormat.gt_zero a = true -> customer <> "" ->
  on_send_request a customer ss
  = ({| upi_link :=
          Some (Some ("upi://pay?pa=" ++ customer ++ "&pn=Costa%20Coffee&am="
                        ++ FloatFormat.format_2f a ++ "&cu=INR"));
        show_qr := Some false;
        show_receipt := Some false;
        transaction_done := Some false;
        payment_method := Some "UPI ID Request";
        receipt_details := receipt_details ss |},
     [st_info ("Simulating request sent to " ++ customer ++ " for ₹"
                 ++ FloatFormat.format_2f a ++ ".")]).
Proof.
  intros Ha Hc. unfold on_send_request.
  rewrite (gt_zero_truthy a Ha), Ha.
  rewrite (proj1 (truthy_nonempty customer) Hc).
  rewrite generate_upi_link_valid by (discriminate || assumption).
  destruct customer as [|x customer]; [contradiction|].
  reflexivity.
Qed.

Lemma on_send_request_invalid (a : spec_float) (customer : string) (ss : session) :
  FloatFormat.gt_zero a = false \/ customer = "" ->
  on_send_request a customer ss
  = (ss, [st_error
            "Please enter a valid amount and customer UPI ID to send a request."]).
Proof.
  intros [Ha| ->]; unfold on_send_request.
  - now rewrite Ha, andb_false_r.
  - now rewrite andb_false_r.
Qed.

Lemma pending_condition (ss : session) :
  pending ss -> receipt_condition ss = Returned true.
Proof.
  intros (_ & _ & _ & Hd & _). unfold receipt_condition. rewrite Hd.
  now rewrite andb_false_r.
Qed.

Lemma receipted_condition (ss : session) :
  receipted ss -> receipt_condition ss = Returned false.
Proof.
  intros (Hl & _ & _ & Hd & _). unfold receipt_condition. now rewrite Hl, Hd.
Qed.

Lemma receipted_display (lib : QR.Library) (ss : session) :
  receipted ss -> qr_display lib ss = [].
Proof. intros (_ & Hq & _). unfold qr_display. now rewrite Hq. Qed.

Lemma on_generate_receipt_receipted
    (a : spec_float) (customer : string) (t : clock) (ss : session) :
  pending ss -> receipted (fst (on_generate_receipt a customer t ss)).
Proof.
  intros (_ & _ & _ & _ & Hm). unfold receipted. cbn.
  repeat split; try assumption. eexists. reflexivity.
Qed.

End AppFacts.

(** X7. Neither button ever reports ["Could not generate UPI link.
    Please check inputs."]: what each handler checks before the call
    already makes [generate_upi_link] return a link. *)
Theorem link_error_never_shown
    (amount : spec_float) (customer_upi_id : string) (ss : App.session) :
  ~ In (App.st_error "Could not generate UPI link. Please check inputs.")
       (snd (App.on_generate_qr amount ss)) /\
  ~ In (App.st_error "Could not generate UPI link. Please check inputs.")
       (snd (App.on_send_request amount customer_upi_id ss)).
Proof.
  split.
  - destruct (FloatFormat.gt_zero amount) eqn:Ha.
    + rewrite on_generate_qr_valid by assumption.
      intros [H|[]]. discriminate H.
    + rewrite on_generate_qr_invalid by assumption.
      intros [H|[]]. discriminate H.
  - destruct (FloatFormat.gt_zero amount) eqn:Ha.
    + destruct (String.string_dec customer_upi_id "") as [Hc|Hc].
      * rewrite on_send_request_invalid by (right; assumption).
        intros [H|[]]. discriminate H.
      * rewrite on_send_request_valid by assumption.
        intros [H|[]]. discriminate H.
    + rewrite on_send_request_invalid by (left; assumption).
      intros [H|[]]. discriminate H.
Qed.

(** X8. The condition in front of the receipt button raises
    [KeyError] for ['transaction_done'] exactly when that key is
    absent and ['upi_link'] is absent, [None] or empty; when the key
    is present the condition is its negation, whatever ['upi_link']
    holds. *)
Theorem receipt_condition_key_error (ss : App.session) :
  (App.receipt_condition ss = App.Raised (App.KeyError "transaction_done") <->
   App.transaction_done ss = None /\
   (App.upi_link ss = None \/ App.upi_link ss = Some None \/
    App.upi_link ss = Some (Some ""))) /\
  (forall done, App.transaction_done ss = Some done ->
                App.receipt_condition ss = App.Returned (negb done)).
Proof.
  unfold App.receipt_condition. split.
  - destruct (App.transaction_done ss) as [d|], (App.upi_link ss) as [[[|c l]|]|];
      cbn; split; try discriminate; auto.
    + intros [H _]. discriminate H.
    + intros [H _]. discriminate H.
    + intros [H _]. discriminate H.
    + intros [H _]. discriminate H.
    + intros [_ [H|[H|H]]]; discriminate H.
  - intros d ->. now rewrite andb_false_r.
Qed.

Lemma receipt_condition_key_error_witness :
  App.receipt_condition App.empty_session
  = App.Raised (App.KeyError "transaction_done") /\
  App.receipt_condition
    (App.mkSession None None None (Some false) None None)
  = App.Returned (negb false).
Proof.
  split.
  - apply (proj1 (receipt_condition_key_error App.empty_session)).
    split; [reflexivity | left; reflexivity].
  - apply (proj2 (receipt_condition_key_error
                    (App.mkSession None None None (Some false) None None))).
    reflexivity.
Defined.

(** X9. On the state of a new session the handlers end in [KeyError]
    for ['transaction_done'], unless this very run makes a link: the
    amount is above zero and either "Generate QR Code" was clicked, or
    "Send Request" was clicked with a customer id. *)
Theorem first_run_key_error (lib : QR.Library) (inp : App.inputs) :
  let makes_link :=
    FloatFormat.gt_zero (App.amount inp)
    && (App.generate_qr_clicked inp
        || (App.send_request_clicked inp && Str.truthy (App.customer_upi_id inp))) in
  (makes_link = false ->
   App.handlers lib inp App.empty_session
   = App.Raised (App.KeyError "transaction_done")) /\
  (makes_link = true ->
   exists ss out,
     App.handlers lib inp App.empty_session = App.Returned (ss, out)).
Proof.
  destruct inp as [a cust q r rc t]. cbn [App.amount App.customer_upi_id
    App.generate_qr_clicked App.send_request_clicked App.generate_receipt_clicked
    App.now].
  unfold App.handlers. cbn [App.amount App.customer_upi_id
    App.generate_qr_clicked App.send_request_clicked App.generate_receipt_clicked
    App.now].
  destruct (FloatFormat.gt_zero a) eqn:Ha.
  - destruct q.
    + rewrite on_generate_qr_valid by assumption.
      split; [discriminate|intros _].
      destruct r.
      * destruct (String.string_dec cust "") as [Hc|Hc].
        -- rewrite on_send_request_invalid by (right; assumption).
           cbn. destruct rc; eauto.
        -- rewrite on_send_request_valid by assumption.
           cbn. destruct rc; eauto.
      * cbn. destruct rc; eauto.
    + destruct r.
      * destruct (String.string_dec cust "") as [Hc|Hc].
        -- rewrite on_send_request_invalid by (right; assumption).
           subst cust. split; [reflexivity | discriminate].
        -- rewrite on_send_request_valid by assumption.
           apply truthy_nonempty in Hc. rewrite Hc.
           split; [discriminate|intros _].
           cbn. destruct rc; eauto.
      * split; [reflexivity | discriminate].
  - split; [intros _ | discriminate].
    destruct q; [rewrite on_generate_qr_invalid by assumption|];
      (destruct r; [rewrite on_send_request_invalid by (left; assumption)|]);
      reflexivity.
Qed.

Lemma first_run_key_error_witness :
  App.handlers echo_library
    (App.mkInputs f150 "" false false false (App.mkClock "" 0 ""))
    App.empty_session
  = App.Raised (App.KeyError "transaction_done") /\
  exists ss out,
    App.handlers echo_library
      (App.mkInputs f150 "" true false false (App.mkClock "" 0 ""))
      App.empty_session
    = App.Returned (ss, out).
Proof.
  split.
  - apply (first_run_key_error echo_library
             (App.mkInputs f150 "" false false false (App.mkClock "" 0 ""))).
    reflexivity.
  - apply (first_run_key_error echo_library
             (App.mkInputs f150 "" true false false (App.mkClock "" 0 ""))).
    reflexivity.
Defined.

(** X10. Once a link has been made the handlers raise nothing any
    more, and they keep the session state in one of two shapes: a link
    waiting for its receipt, with ['transaction_done'] false, or a
    receipt made, with the link cleared and ['transaction_done']
    true. *)
Theorem handlers_keep_shape
    (lib : QR.Library) (inp : App.inputs) (ss : App.session) :
  App.pending ss \/ App.receipted ss ->
  exists ss' out,
    App.handlers lib inp ss = App.Returned (ss', out) /\
    (App.pending ss' \/ App.receipted ss').
Proof.
  intros Hss.
  destruct inp as [a cust q r rc t]. unfold App.handlers.
  cbn [App.amount App.customer_upi_id App.generate_qr_clicked
       App.send_request_clicked App.generate_receipt_clicked App.now].
  (* the state after the first button *)
  assert (H1 : exists ss1 out1,
             (if q then App.on_generate_qr a ss else (ss, [])) = (ss1, out1)
             /\ (App.pending ss1 \/ App.receipted ss1)).
  { destruct q; [|eauto].
    destruct (FloatFormat.gt_zero a) eqn:Ha.
    - rewrite on_generate_qr_valid by assumption.
      do 2 eexists. split; [reflexivity|]. left.
      unfold App.pending. cbn. repeat split; eauto.
      eexists. split; [reflexivity | discriminate].
    - rewrite on_generate_qr_invalid by assumption. eauto. }
  destruct H1 as (ss1 & out1 & -> & Hss1).
  (* the state after the second button *)
  assert (H2 : exists ss2 out2,
             (if r then App.on_send_request a cust ss1 else (ss1, [])) = (ss2, out2)
             /\ (App.pending ss2 \/ App.receipted ss2)).
  { destruct r; [|eauto].
    destruct (FloatFormat.gt_zero a) eqn:Ha.
    - destruct (String.string_dec cust "") as [Hc|Hc].
      + rewrite on_send_request_invalid by (right; assumption). eauto.
      + rewrite on_send_request_valid by assumption.
        do 2 eexists. split; [reflexivity|]. left.
        unfold App.pending. cbn. repeat split; eauto.
        eexists. split; [reflexivity|].
        destruct cust; [contradiction | discriminate].
    - rewrite on_send_request_invalid by (left; assumption). eauto. }
  destruct H2 as (ss2 & out2 & -> & [Hp|Hr]).
  - rewrite (pending_condition ss2 Hp). destruct rc.
    + pose proof (on_generate_receipt_receipted a cust t ss2 Hp) as Hrec.
      destruct (App.on_generate_receipt a cust t ss2) as [ss3 out4].
      do 2 eexists. split; [reflexivity|]. right. exact Hrec.
    + eauto.
  - rewrite (receipted_condition ss2 Hr). eauto.
Qed.

Lemma handlers_keep_shape_witness :
  exists ss' out,
    App.handlers echo_library
      (App.mkInputs f150 "" false false true (App.mkClock "20250101120000" 7 "2025-01-01 12:00:00"))
      (App.mkSession (Some (Some "upi://pay?pa=x")) (Some true) (Some false)
         (Some false) (Some "QR Code Scan") None)
    = App.Returned (ss', out) /\
    (App.pending ss' \/ App.receipted ss').
Proof.
  apply handlers_keep_shape. left.
  unfold App.pending. cbn. repeat split; eauto.
  eexists. split; [reflexivity | discriminate].
Defined.

(** X11. After a receipt has been made, lines 161 to 223 of a run in
    which neither "Generate QR Code" nor "Send Request" is clicked
    leave the session state as it is and draw nothing: the QR display
    stays hidden and the receipt button is not offered, whether it
    counts as clicked or not, so one link gives at most one receipt.
    (The receipt display and the reset button come after these
    lines.) *)
Theorem receipted_state_is_inert
    (lib : QR.Library) (inp : App.inputs) (ss : App.session) :
  App.receipted ss ->
  App.generate_qr_clicked inp = false ->
  App.send_request_clicked inp = false ->
  App.handlers lib inp ss = App.Returned (ss, []).
Proof.
  intros Hr Hq Hs. unfold App.handlers. rewrite Hq, Hs.
  rewrite (receipted_condition ss Hr), (receipted_display lib ss Hr).
  reflexivity.
Qed.

Lemma receipted_state_is_inert_witness :
  App.handlers echo_library
    (App.mkInputs f150 "" false false true (App.mkClock "" 0 ""))
    (App.mkSession (Some None) (Some false) (Some true) (Some true)
       (Some "QR Code Scan")
       (Some (App.mkReceipt "TXN1-0" "" "" "QR Code Scan" "N/A" "Costa Coffee")))
  = App.Returned
      (App.mkSession (Some None) (Some false) (Some true) (Some true)
         (Some "QR Code Scan")
         (Some (App.mkReceipt "TXN1-0" "" "" "QR Code Scan" "N/A" "Costa Coffee")),
       []).
Proof.
  apply receipted_state_is_inert; try reflexivity.
  unfold App.receipted. cbn. repeat split; eauto.
Defined.

(** X12. A run in which only "Generate QR Code" is clicked, with an
    amount above zero, stores the shop's link for that amount, reports
    success, and in the same run draws the QR code of that link as a
    PNG data URI, provided the package saved at least one octet. *)
Theorem qr_click_draws_code
    (lib : QR.Library) (inp : App.inputs) (ss : App.session) :
  App.generate_qr_clicked inp = true ->
  App.send_request_clicked inp = false ->
  App.generate_receipt_clicked inp = false ->
  FloatFormat.gt_zero (App.amount inp) = true ->
  let link := "upi://pay?pa=costacoffee@upi&pn=Costa%20Coffee&am="
                ++ FloatFormat.format_2f (App.amount inp) ++ "&cu=INR" in
  exists ss' out,
    App.handlers lib inp ss = App.Returned (ss', out) /\
    App.upi_link ss' = Some (Some link) /\
    App.show_qr ss' = Some true /\
    App.payment_method ss' = Some "QR Code Scan" /\
    In (App.st_success "QR Code generated!") out /\
    (In (App.st_image
           ("data:image/png;base64," ++ Base64.b64encode (qr_png lib link))
           "Payment QR Code" 250) out
     <-> qr_png lib link <> []).
Proof.
  intros Hq Hs Hrc Ha link. unfold App.handlers. rewrite Hq, Hs, Hrc.
  rewrite on_generate_qr_valid by assumption. fold link.
  cbn [App.receipt_condition App.upi_link App.transaction_done
       App.link_truthy andb negb].
  do 2 eexists. split; [reflexivity|].
  cbn [App.upi_link App.show_qr App.payment_method].
  repeat split; try reflexivity.
  - left. reflexivity.
  - unfold App.qr_display. cbn [App.show_qr App.upi_link].
    replace (generate_qr_code_base64 lib (Some link))
      with (Some (Base64.b64encode (qr_png lib link))) by reflexivity.
    rewrite b64encode_truthy. intros H E. rewrite E in H.
    cbn in H. intuition discriminate.
  - intros Hne. unfold App.qr_display. cbn [App.show_qr App.upi_link].
    replace (generate_qr_code_base64 lib (Some link))
      with (Some (Base64.b64encode (qr_png lib link))) by reflexivity.
    rewrite b64encode_truthy.
    destruct (qr_png lib link) as [|x bs]; [contradiction|].
    cbn. auto.
Qed.

Lemma qr_click_draws_code_witness :
  exists ss' out,
    App.handlers echo_library
      (App.mkInputs f150 "" true false false (App.mkClock "" 0 ""))
      App.empty_session
    = App.Returned (ss', out) /\
    App.upi_link ss'
    = Some (Some ("upi://pay?pa=costacoffee@upi&pn=Costa%20Coffee&am="
                    ++ FloatFormat.format_2f f150 ++ "&cu=INR")) /\
    App.show_qr ss' = Some true /\
    App.payment_method ss' = Some "QR Code Scan" /\
    In (App.st_success "QR Code generated!") out /\
    (In (App.st_image
           ("data:image/png;base64,"
              ++ Base64.b64encode
                   (qr_png echo_library
                      ("upi://pay?pa=costacoffee@upi&pn=Costa%20Coffee&am="
                         ++ FloatFormat.format_2f f150 ++ "&cu=INR")))
           "Payment QR Code" 250) out
     <-> qr_png echo_library
           ("upi://pay?pa=costacoffee@upi&pn=Costa%20Coffee&am="
              ++ FloatFormat.format_2f f150 ++ "&cu=INR") <> []).
Proof.
  apply (qr_click_draws_code echo_library
           (App.mkInputs f150 "" true false false (App.mkClock "" 0 "")));
    reflexivity.
Defined.

(** X13. A run in which only "Send Request" is clicked, with an amount
    above zero and a customer id, stores a link whose payee is the
    customer id as typed, announces the request, and draws no QR
    code. *)
Theorem request_click_draws_no_code
    (lib : QR.Library) (inp : App.inputs) (ss : App.session) :
  App.generate_qr_clicked inp = false ->
  App.send_request_clicked inp = true ->
  App.generate_receipt_clicked inp = false ->
  FloatFormat.gt_zero (App.amount inp) = true ->
  App.customer_upi_id inp <> "" ->
  exists ss' out,
    App.handlers lib inp ss = App.Returned (ss', out) /\
    App.upi_link ss'
    = Some (Some ("upi://pay?pa=" ++ App.customer_upi_id inp
                    ++ "&pn=Costa%20Coffee&am="
                    ++ FloatFormat.format_2f (App.amount inp) ++ "&cu=INR")) /\
    App.show_qr ss' = Some false /\
    App.payment_method ss' = Some "UPI ID Request" /\
    out = [App.st_info ("Simulating request sent to " ++ App.customer_upi_id inp
                          ++ " for ₹" ++ FloatFormat.format_2f (App.amount inp)
                          ++ ".")].
Proof.
  intros Hq Hs Hrc Ha Hc. unfold App.handlers. rewrite Hq, Hs, Hrc.
  rewrite on_send_request_valid by assumption.
  do 2 eexists. split; [reflexivity|].
  repeat split.
Qed.

Lemma request_click_draws_no_code_witness :
  exists ss' out,
    App.handlers echo_library
      (App.mkInputs f150 "a&b@upi" false true false (App.mkClock "" 0 ""))
      App.empty_session
    = App.Returned (ss', out) /\
    App.upi_link ss'
    = Some (Some ("upi://pay?pa=" ++ "a&b@upi" ++ "&pn=Costa%20Coffee&am="
                    ++ FloatFormat.format_2f f150 ++ "&cu=INR")) /\
    App.show_qr ss' = Some false /\
    App.payment_method ss' = Some "UPI ID Request" /\
    out = [App.st_info ("Simulating request sent to " ++ "a&b@upi"
                          ++ " for ₹" ++ FloatFormat.format_2f f150 ++ ".")].
Proof.
  apply (request_click_draws_no_code echo_library
           (App.mkInputs f150 "a&b@upi" false true false (App.mkClock "" 0 "")));
    solve [reflexivity | discriminate].
Defined.

(** X14. The receipt takes its amount from the amount field at the
    time "Generate Receipt" is clicked, unchecked, and not from the
    link: after a QR code was made for one amount, a receipt made in a
    later run shows the amount of that later run, with payment method
    ["QR Code Scan"], and clears the link. *)
Theorem receipt_records_current_amount
    (lib : QR.Library) (inp1 inp2 : App.inputs) (ss : App.session) :
  App.generate_qr_clicked inp1 = true ->
  App.send_request_clicked inp1 = false ->
  App.generate_receipt_clicked inp1 = false ->
  FloatFormat.gt_zero (App.amount inp1) = true ->
  App.generate_qr_clicked inp2 = false ->
  App.send_request_clicked inp2 = false ->
  App.generate_receipt_clicked inp2 = true ->
  exists ss1 out1 ss2 out2 r,
    App.handlers lib inp1 ss = App.Returned (ss1, out1) /\
    App.handlers lib inp2 ss1 = App.Returned (ss2, out2) /\
    App.receipt_details ss2 = Some r /\
    App.amount_text r = "₹" ++ FloatFormat.format_2f (App.amount inp2) /\
    App.receipt_payment_method r = "QR Code Scan" /\
    App.shop_name r = "Costa Coffee" /\
    App.upi_link ss2 = Some None /\
    App.transaction_done ss2 = Some true /\
    In (App.st_success "Receipt generated!") out2.
Proof.
  intros Hq1 Hs1 Hr1 Ha Hq2 Hs2 Hr2.
  unfold App.handlers. rewrite Hq1, Hs1, Hr1, Hq2, Hs2, Hr2.
  rewrite on_generate_qr_valid by assumption.
  cbn [App.receipt_condition App.upi_link App.transaction_done
       App.link_truthy andb negb].
  do 5 eexists. split; [reflexivity|].
  cbn [App.receipt_condition App.upi_link App.transaction_done
       App.link_truthy andb negb App.on_generate_receipt].
  split; [reflexivity|].
  cbn [App.receipt_details App.amount_text App.receipt_payment_method
       App.shop_name App.upi_link App.transaction_done App.payment_method].
  repeat split.
  rewrite !in_app_iff. cbn [In]. auto 10.
Qed.

Lemma receipt_records_current_amount_witness :
  exists ss1 out1 ss2 out2 r,
    App.handlers echo_library
      (App.mkInputs f150 "" true false false (App.mkClock "" 0 ""))
      App.empty_session
    = App.Returned (ss1, out1) /\
    App.handlers echo_library
      (App.mkInputs f0_004 "" false false true
         (App.mkClock "20250101120000" 7 "2025-01-01 12:00:00"))
      ss1
    = App.Returned (ss2, out2) /\
    App.receipt_details ss2 = Some r /\
    App.amount_text r = "₹" ++ FloatFormat.format_2f f0_004 /\
    App.receipt_payment_method r = "QR Code Scan" /\
    App.shop_name r = "Costa Coffee" /\
    App.upi_link ss2 = Some None /\
    App.transaction_done ss2 = Some true /\
    In (App.st_success "Receipt generated!") out2.
Proof.
  apply (receipt_records_current_amount echo_library
           (App.mkInputs f150 "" true false false (App.mkClock "" 0 ""))
           (App.mkInputs f0_004 "" false false true
              (App.mkClock "20250101120000" 7 "2025-01-01 12:00:00")));
    reflexivity.
Defined.

Lemma link_error_never_shown_witness :
  ~ In (App.st_error "Could not generate UPI link. Please check inputs.")
       (snd (App.on_generate_qr f0 App.empty_session)) /\
  ~ In (App.st_error "Could not generate UPI link. Please check inputs.")
       (snd (App.on_send_request f0 "" App.empty_session)).
Proof. apply link_error_never_shown. Defined.

(** ** The call in a running process *)

Section RuntimeFacts.

Import Runtime UrlParse.

Let safe : string := ALWAYS_SAFE ++ "/".









End RuntimeFacts.



